(** * Reddit brand-sentiment dashboard: the ingest pipeline and its store

    A shallow embedding of

    - [src/sentiment_analysis.py]  ([get_sentiment_label], [add_sentiment_scores]),
    - [src/db_utils.py]            ([get_db_connection], [save_data], [load_data]),
    - [src/reddit_scraper.py]      ([fetch_reddit_mentions]),
    - [notebooks/poc_exploration.py] ([run_update_pipeline]),

    followed by the properties of the ingest pipeline and of the
    append-only store.

    Scores are binary64 floats, as in Python, and are compared with the
    IEEE comparisons of Rocq's primitive floats.  A pandas DataFrame is a
    list of column names and a list of rows; a row is a finite map from
    column names to cells, as the dictionaries the scraper builds.  The
    SQLite file, and what the program prints, form the state that the
    program's functions read and change. *)

From Stdlib Require Import Floats ZArith QArith Lia.
From stdpp Require Import gmap strings list pretty.

#[local] Set Warnings "-inexact-float".
#[local] Open Scope Z_scope.

(** ** Cells *)

(** What a DataFrame cell or an SQLite field of this program holds:
    a missing value ([None], [NaT], SQL [NULL]), a [str] ([TEXT]), a
    [float] ([REAL]), or a pandas [Timestamp], counted in nanoseconds
    since the epoch. *)
Inductive value : Type :=
  | VNone
  | VStr (s : string)
  | VFloat (f : float)
  | VTimestamp (ns : Z).

(** Membership of a cell in a Python set, as [Series.isin] tests it. Two
    [str] are the same when they are equal strings; floats are compared as
    [==] compares them, and missing values match each other. *)
Definition value_eqb (a b : value) : bool :=
  match a, b with
  | VNone, VNone => true
  | VStr s, VStr t => bool_decide (s = t)
  | VFloat f, VFloat g => (f =? g)%float || (PrimFloat.is_nan f && PrimFloat.is_nan g)
  | VTimestamp m, VTimestamp n => bool_decide (m = n)
  | _, _ => false
  end.

(** ** Floats *)

(** The number [n * 2 ^ e]. *)
Definition dyadic (n : Z) (e : Z) : Q :=
  if 0 <=? e then inject_Z (n * 2 ^ e) else n # Z.to_pos (2 ^ (- e)).

(** The number that a float is, when it is finite: neither an infinity nor
    a NaN. *)
Definition float_value (f : float) : option Q :=
  match Prim2SF f with
  | S754_zero _ => Some 0%Q
  | S754_finite s m e => Some (dyadic (if s then Z.neg m else Z.pos m) e)
  | _ => None
  end.

(** ** Exceptions *)

(** The exceptions that the modelled code and its libraries raise, each
    with the text that [str(e)] gives. *)
Inductive exn : Type :=
  | ValueError (msg : string)
  | KeyError (msg : string)
  | TypeError (msg : string)
  | OutOfBoundsDatetime (msg : string)
  | DatabaseError (msg : string).

Definition str_exn (e : exn) : string :=
  match e with
  | ValueError m | KeyError m | TypeError m
  | OutOfBoundsDatetime m | DatabaseError m => m
  end.

Inductive result (A : Type) : Type :=
  | Ok (a : A)
  | Raise (e : exn).
Arguments Ok {A} a.
Arguments Raise {A} e.

#[global] Instance result_ret : MRet result := λ A a, Ok a.
#[global] Instance result_bind : MBind result := λ A B f r,
  match r with
  | Ok a => f a
  | Raise e => Raise e
  end.

(** [Series.apply(f)]: [f] on every cell, in order; the first exception
    ends the traversal. *)
Fixpoint series_apply {A B : Type} (f : A → result B) (l : list A) : result (list B) :=
  match l with
  | [] => Ok []
  | x :: l' =>
      match f x with
      | Ok y =>
          match series_apply f l' with
          | Ok ys => Ok (y :: ys)
          | Raise e => Raise e
          end
      | Raise e => Raise e
      end
  end.

(** ** DataFrames *)

Abbreviation Row := (gmap string value).

(** A row binds no name outside [columns]; every function below keeps
    that. A column that a row does not bind reads as the missing value. *)
Record DataFrame : Type := mkDataFrame {
  columns : list string;
  rows : list Row;
}.

(** [pd.DataFrame()] *)
Definition pd_DataFrame : DataFrame := mkDataFrame [] [].

(** [pd.DataFrame(records)] for a list of dictionaries that all have the
    keys [keys], in that order: no record, no column. *)
Definition DataFrame_of_records (keys : list string) (records : list Row) : DataFrame :=
  match records with
  | [] => pd_DataFrame
  | _ :: _ => mkDataFrame keys records
  end.

(** [df.empty]: one of the two axes has length zero. *)
Definition df_empty (df : DataFrame) : bool :=
  match columns df, rows df with
  | [], _ | _, [] => true
  | _, _ => false
  end.

(** [len(df)] *)
Definition len (df : DataFrame) : nat := length (rows df).

Definition cell (c : string) (r : Row) : value := default VNone (r !! c).

(** [c in df.columns] *)
Definition has_column (c : string) (df : DataFrame) : bool :=
  bool_decide (c ∈ columns df).

(** [df[c]]: the cells of column [c], or [KeyError]. *)
Definition getitem (df : DataFrame) (c : string) : result (list value) :=
  if has_column c df then Ok (cell c <$> rows df) else Raise (KeyError c).

(** [df[c] = series], for a series as long as the frame: an existing column
    is overwritten, a new one is added last. *)
Definition setitem (df : DataFrame) (c : string) (series : list value) : DataFrame :=
  mkDataFrame
    (if has_column c df then columns df else columns df ++ [c])
    (zip_with (λ r v, <[c := v]> r) (rows df) series).

(** [series.isin(values)] on one cell. *)
Definition isin (values : list value) (v : value) : bool :=
  existsb (value_eqb v) values.

(** [df[mask]] for a boolean series [mask]: the rows where it holds. *)
Definition select (df : DataFrame) (mask : list bool) : DataFrame :=
  mkDataFrame (columns df)
    (fst <$> filter (λ rb, snd rb = true) (zip (rows df) mask)).

(** [df.copy()]: frames are values here, a copy is the frame itself. *)
Definition copy (df : DataFrame) : DataFrame := df.

(** ** The libraries and the service outside the repository *)

(** A submission as PRAW presents it; [author] is [None] when the account
    is gone, and [created_utc] is a float of seconds since the epoch. *)
Record Post : Type := mkPost {
  post_id : string;
  title : string;
  selftext : string;
  author : option string;
  created_utc : float;
  permalink : string;
}.

(** What iterating over [subreddit.search(...)] does: it yields posts, and
    then either stops or raises (the listing is fetched lazily, page by
    page, so a request can fail after earlier pages were yielded). *)
Record SearchResults : Type := mkSearchResults {
  yielded : list Post;
  raised : option string;
}.

Class Externals : Type := {
  (** VADER's [polarity_scores(text)['compound']] on a [str] *)
  compound : string → float;
  (** [subreddit(sub_name).search(query, limit, sort='new')] *)
  search : string → string → nat → SearchResults;
  (** [pd.to_datetime(_, unit='s')] on a [str] and on a float that is not
      a whole number of seconds *)
  to_datetime_other : value → result value;
  (** the text SQLite stores for a [Timestamp] *)
  isoformat : Z → string;
}.

Section Model.
Context `{Externals}.

(** ** src/sentiment_analysis.py *)

(** [get_sentiment_label(score)] *)
Definition get_sentiment_label (score : float) : string :=
  if (0.05 <=? score)%float then "Positive"
  else if (score <=? -0.05)%float then "Negative"
  else "Neutral".

(** [lambda text: analyzer.polarity_scores(text)['compound']] on a cell:
    VADER walks through the characters of its argument, which only a [str]
    has. *)
Definition polarity_compound (text : value) : result value :=
  match text with
  | VStr s => Ok (VFloat (compound s))
  | _ => Raise (TypeError "object is not iterable")
  end.

(** [get_sentiment_label] on a cell: the two comparisons are defined
    between floats only. *)
Definition sentiment_label_of (score : value) : result value :=
  match score with
  | VFloat f => Ok (VStr (get_sentiment_label f))
  | _ => Raise (TypeError "'>=' not supported between these instances")
  end.

(** [add_sentiment_scores(df)] *)
Definition add_sentiment_scores (df : DataFrame) : result DataFrame :=
  if negb (has_column "text" df) then
    Raise (ValueError "DataFrame must contain a 'text' column.")
  else
    text ← getitem df "text";
    scores ← series_apply polarity_compound text;
    let df := setitem df "sentiment_score" scores in
    sentiment_score ← getitem df "sentiment_score";
    labels ← series_apply sentiment_label_of sentiment_score;
    let df := setitem df "sentiment_label" labels in
    Ok df.

(** ** The state: the database file and the console *)

(** The table [mentions] of the SQLite file: its columns, and its rows in
    the order of insertion. *)
Record Table : Type := mkTable {
  t_columns : list string;
  t_rows : list Row;
}.

(** [data/reddit_sentiment.db]: no such file, or a database with or
    without the table. *)
Inductive DB : Type :=
  | NoFile
  | File (mentions : option Table).

Record World : Type := mkWorld {
  db : DB;
  stdout : list string;
}.

(** A computation reads and changes the state, and returns or raises. *)
Definition M (A : Type) : Type := World → result A * World.

#[global] Instance M_ret : MRet M := λ A a w, (Ok a, w).
#[global] Instance M_bind : MBind M := λ A B f m w,
  match m w with
  | (Ok a, w') => f a w'
  | (Raise e, w') => (Raise e, w')
  end.

Definition lift {A : Type} (r : result A) : M A := λ w, (r, w).

Definition print (s : string) : M () :=
  λ w, (Ok (), mkWorld (db w) (stdout w ++ [s])).

(** [try: body / except Exception as e: handler e] *)
Definition try_except {A : Type} (body : M A) (handler : exn → M A) : M A :=
  λ w,
  match body w with
  | (Ok a, w') => (Ok a, w')
  | (Raise e, w') => handler e w'
  end.

(** The newline of ["\n..."]. *)
Definition LF : string := String (Ascii.ascii_of_nat 10) EmptyString.

(** ** src/db_utils.py *)

Definition TABLE_NAME : string := "mentions".

(** [os.path.exists(DB_FILE)] *)
Definition os_path_exists_DB_FILE : M bool :=
  λ w, (Ok (match db w with NoFile => false | File _ => true end), w).

(** [get_db_connection()]: connecting creates the file when there is none
    (and [os.makedirs] its directory, which is not part of the state). *)
Definition get_db_connection : M () :=
  λ w,
  match db w with
  | NoFile => (Ok (), mkWorld (File None) (stdout w))
  | File _ => (Ok (), w)
  end.

(** What reaches SQLite for a cell: a [Timestamp] is stored as text. *)
Definition sqlite_adapt (v : value) : value :=
  match v with
  | VTimestamp ns => VStr (isoformat ns)
  | _ => v
  end.

Definition sqlite_row (r : Row) : Row := sqlite_adapt <$> r.

(** [df.to_sql(TABLE_NAME, conn, if_exists='append', index=False)]: the
    table is created with the frame's columns when there is none;
    otherwise the rows are inserted, which SQLite refuses when the frame
    has a column that the table lacks. The insertion is one transaction. *)
Definition to_sql (df : DataFrame) : M () :=
  λ w,
  match db w with
  | NoFile => (Raise (DatabaseError "unable to open database file"), w)
  | File None =>
      (Ok (), mkWorld (File (Some (mkTable (columns df) (sqlite_row <$> rows df))))
                      (stdout w))
  | File (Some t) =>
      match filter (λ c, c ∉ t_columns t) (columns df) with
      | [] =>
          (Ok (), mkWorld (File (Some (mkTable (t_columns t)
                                         (t_rows t ++ (sqlite_row <$> rows df)))))
                          (stdout w))
      | c :: _ =>
          (Raise (DatabaseError ("table " +:+ TABLE_NAME +:+ " has no column named " +:+ c)), w)
      end
  end.

(** [save_data(df)]; closing the connection, in [finally], changes nothing
    in the state. *)
Definition save_data (df : DataFrame) : M () :=
  if df_empty df then
    print "Dataframe is empty, nothing to save."
  else
    get_db_connection;;
    try_except
      (to_sql df;;
       print ("Successfully saved " +:+ pretty (len df) +:+ " new records to the '"
              +:+ TABLE_NAME +:+ "' table."))
      (λ e, print ("An error occurred while saving data: " +:+ str_exn e)).

(** [pd.read_sql("SELECT * FROM mentions", conn)] *)
Definition read_sql : M DataFrame :=
  λ w,
  match db w with
  | File (Some t) => (Ok (mkDataFrame (t_columns t) (t_rows t)), w)
  | _ =>
      (Raise (DatabaseError ("Execution failed on sql 'SELECT * FROM " +:+ TABLE_NAME
                             +:+ "': no such table: " +:+ TABLE_NAME)), w)
  end.

(** The whole number that a float is, if it is one. *)
Definition whole_number (f : float) : option Z :=
  match Prim2SF f with
  | S754_zero _ => Some 0
  | S754_finite s m e =>
      let n := if s then Z.neg m else Z.pos m in
      if 0 <=? e then Some (n * 2 ^ e)
      else if n mod 2 ^ (- e) =? 0 then Some (n / 2 ^ (- e))
      else None
  | _ => None
  end.

(** The nanoseconds that a [Timestamp] can count: [Timestamp.min] and
    [Timestamp.max]. *)
Definition Timestamp_min : Z := -9223372036854775807.
Definition Timestamp_max : Z := 9223372036854775807.

(** [pd.to_datetime(_, unit='s')] on one cell. A whole number of seconds is
    that many times 10^9 nanoseconds, if a [Timestamp] can count them; a
    missing value stays missing, and a [Timestamp] stays as it is. *)
Definition to_datetime_s (v : value) : result value :=
  match v with
  | VNone => Ok VNone
  | VTimestamp ns => Ok (VTimestamp ns)
  | VFloat f =>
      match whole_number f with
      | Some secs =>
          let ns := secs * 10 ^ 9 in
          if (Timestamp_min <=? ns) && (ns <=? Timestamp_max) then Ok (VTimestamp ns)
          else Raise (OutOfBoundsDatetime "cannot convert input with unit 's'")
      | None => if PrimFloat.is_nan f then Ok VNone else to_datetime_other v
      end
  | VStr _ => to_datetime_other v
  end.

(** [load_data()]; closing the connection, in [finally], changes nothing
    in the state. *)
Definition load_data : M DataFrame :=
  file_exists ← os_path_exists_DB_FILE;
  if negb file_exists then
    mret pd_DataFrame
  else
    get_db_connection;;
    try_except
      (df ← read_sql;
       created ← lift (getitem df "created_utc");
       created ← lift (series_apply to_datetime_s created);
       let df := setitem df "created_utc" created in
       mret df)
      (λ e,
        print ("An error occurred while loading data: " +:+ str_exn e);;
        mret pd_DataFrame).

(** ** src/reddit_scraper.py *)

(** The keys of the dictionary built for a post, in its order. *)
Definition mention_columns : list string :=
  ["id"; "brand"; "text"; "subreddit"; "author"; "created_utc";
   "sentiment_score"; "sentiment_label"; "url"].

(** [str(post.author)] *)
Definition str_author (a : option string) : string := default "None" a.

(** The dictionary appended to [all_posts_data] for [post]. *)
Definition post_record (sub_name brand : string) (post : Post) : Row :=
  list_to_map
    [("id", VStr (post_id post));
     ("brand", VStr brand);
     ("text", VStr (title post +:+ " " +:+ selftext post));
     ("subreddit", VStr sub_name);
     ("author", VStr (str_author (author post)));
     ("created_utc", VFloat (created_utc post));
     ("sentiment_score", VFloat 0.0);
     ("sentiment_label", VStr "Neutral");
     ("url", VStr ("https://reddit.com" +:+ permalink post))].

(** A mention, field by field, and the record that holds it. *)
Record Mention : Type := mkMention {
  m_id : string;
  m_brand : string;
  m_text : string;
  m_subreddit : string;
  m_author : string;
  m_created_utc : float;
  m_sentiment_score : float;
  m_sentiment_label : string;
  m_url : string;
}.

Definition mention_record (m : Mention) : Row :=
  list_to_map
    [("id", VStr (m_id m));
     ("brand", VStr (m_brand m));
     ("text", VStr (m_text m));
     ("subreddit", VStr (m_subreddit m));
     ("author", VStr (m_author m));
     ("created_utc", VFloat (m_created_utc m));
     ("sentiment_score", VFloat (m_sentiment_score m));
     ("sentiment_label", VStr (m_sentiment_label m));
     ("url", VStr (m_url m))].

(** The body of the inner loop, for one subreddit and one brand: the [try]
    appends a record for each post that the search yields; when the search
    raises, the [except] prints, and what was appended before stays in
    [all_posts_data]. *)
Definition search_pair (sub_name brand : string) (limit : nat)
    (all_posts_data : list Row) : M (list Row) :=
  let search_results := search sub_name brand limit in
  let all_posts_data :=
    foldl (λ acc post, acc ++ [post_record sub_name brand post])
      all_posts_data (yielded search_results) in
  match raised search_results with
  | None => mret all_posts_data
  | Some e =>
      print ("Could not fetch from r/" +:+ sub_name +:+ ". Error: " +:+ e);;
      mret all_posts_data
  end.

(** [for x in l: s = body x s] *)
Fixpoint for_each {A S : Type} (l : list A) (body : A → S → M S) (s : S) : M S :=
  match l with
  | [] => mret s
  | x :: l' => s' ← body x s; for_each l' body s'
  end.

(** [fetch_reddit_mentions(brands, subreddits, limit_per_subreddit)]; the
    progress bar, which goes to the standard error, is left out. *)
Definition fetch_reddit_mentions (brands subreddits : list string)
    (limit_per_subreddit : nat) : M DataFrame :=
  print ("Searching for mentions of " +:+ String.concat ", " brands
         +:+ " in subreddits: " +:+ String.concat ", " subreddits +:+ "...");;
  all_posts_data ←
    for_each subreddits (λ sub_name,
      for_each brands (λ brand,
        search_pair sub_name brand limit_per_subreddit)) [];
  mret (DataFrame_of_records mention_columns all_posts_data).

(** ** notebooks/poc_exploration.py *)

Definition BRANDS : list string := ["NVIDIA"; "AMD"].
Definition SUBREDDITS : list string :=
  ["hardware"; "gaming"; "pcmasterrace"; "buildapc"; "intel"].
Definition POST_LIMIT : nat := 200.

(** [set(series)]: one of each value. *)
Fixpoint py_set (series : list value) : list value :=
  match series with
  | [] => []
  | v :: series' =>
      let s := py_set series' in
      if isin s v then s else v :: s
  end.

(** [run_update_pipeline()] *)
Definition run_update_pipeline : M () :=
  print "--- Starting Data Update Pipeline ---";;
  (* 1. Load existing data to get IDs we've already processed *)
  print "[Step 1/5] Loading existing data from database...";;
  existing_df ← load_data;
  existing_ids ←
    (if negb (df_empty existing_df) then
       ids ← lift (getitem existing_df "id"); mret (py_set ids)
     else mret []);
  print ("Found " +:+ pretty (length existing_ids) +:+ " existing records in the database.");;
  (* 2. Fetch latest mentions from Reddit *)
  print (LF +:+ "[Step 2/5] Fetching latest Reddit mentions...");;
  latest_df ← fetch_reddit_mentions BRANDS SUBREDDITS POST_LIMIT;
  if df_empty latest_df then
    print "No new data fetched from Reddit. Exiting."
  else
    (* 3. Filter out posts we already have *)
    print (LF +:+ "[Step 3/5] Filtering for new, unseen posts...");;
    latest_ids ← lift (getitem latest_df "id");
    let new_posts_df := select latest_df (negb <$> (isin existing_ids <$> latest_ids)) in
    if df_empty new_posts_df then
      print "No new posts found since last update. Pipeline finished."
    else
      print ("Found " +:+ pretty (len new_posts_df) +:+ " new posts to process.");;
      (* 4. Perform sentiment analysis on new posts *)
      print (LF +:+ "[Step 4/5] Performing sentiment analysis on new data...");;
      analyzed_df ← lift (add_sentiment_scores (copy new_posts_df));
      print "Sentiment analysis complete.";;
      (* 5. Save the new, analyzed data to the database *)
      print (LF +:+ "[Step 5/5] Saving new data to the database...");;
      save_data analyzed_df;;
      print (LF +:+ "--- Pipeline finished successfully! ---").

(** ** Words for the properties *)

(** The text of a record, and the record with its score and its label. *)
Definition text_of (r : Row) : string :=
  match cell "text" r with
  | VStr s => s
  | _ => EmptyString
  end.

Definition score_record (r : Row) : Row :=
  <["sentiment_label" := VStr (get_sentiment_label (compound (text_of r)))]>
    (<["sentiment_score" := VFloat (compound (text_of r))]> r).

(** The cells of [text] are [str], as the scraper makes them. *)
Definition text_is_str (r : Row) : bool :=
  match cell "text" r with
  | VStr _ => true
  | _ => false
  end.

(** The columns after [df[c] = ...]. *)
Definition with_column (c : string) (cols : list string) : list string :=
  if bool_decide (c ∈ cols) then cols else cols ++ [c].

(** The rows of the table, none when there is no table; and its columns. *)
Definition stored (d : DB) : list Row :=
  match d with
  | File (Some t) => t_rows t
  | _ => []
  end.

Definition table_columns (d : DB) : option (list string) :=
  match d with
  | File (Some t) => Some (t_columns t)
  | _ => None
  end.

(** [d'] has the rows of [d], the same and in the same places, before any
    other, and a table of [d] keeps its columns. *)
Definition extends (d d' : DB) : Prop :=
  stored d `prefix_of` stored d'
  ∧ ∀ cols, table_columns d = Some cols → table_columns d' = Some cols.

Definition append_only {A : Type} (m : M A) : Prop :=
  ∀ w, extends (db w) (db (snd (m w))).

(** The records of the posts that every search yields, subreddit by
    subreddit and brand by brand; and the lines printed for the searches
    that raise. *)
Definition fetched_records (brands subreddits : list string) (limit : nat) : list Row :=
  sub_name ← subreddits;
  brand ← brands;
  post_record sub_name brand <$> yielded (search sub_name brand limit).

Definition search_error (sub_name brand : string) (limit : nat) : list string :=
  match raised (search sub_name brand limit) with
  | Some e => ["Could not fetch from r/" +:+ sub_name +:+ ". Error: " +:+ e]
  | None => []
  end.

Definition fetch_errors (brands subreddits : list string) (limit : nat) : list string :=
  sub_name ← subreddits;
  brand ← brands;
  search_error sub_name brand limit.

(** The line that [fetch_reddit_mentions] prints first. *)
Definition fetch_banner (brands subreddits : list string) : string :=
  "Searching for mentions of " +:+ String.concat ", " brands
  +:+ " in subreddits: " +:+ String.concat ", " subreddits +:+ "...".

(** From the store [d], whatever was printed before, [m] returns [a] and
    leaves the store [d']. *)
Definition returns {A : Type} (m : M A) (d : DB) (a : A) (d' : DB) : Prop :=
  ∀ out, ∃ out', m (mkWorld d out) = (Ok a, mkWorld d' out').

(** A row as [load_data] returns it. *)
Definition loaded_row (r : Row) : result Row :=
  match to_datetime_s (cell "created_utc" r) with
  | Ok ts => Ok (<["created_utc" := ts]> r)
  | Raise e => Raise e
  end.

(** The frame that [load_data] returns. *)
Definition loaded (d : DB) : DataFrame :=
  match d with
  | File (Some t) =>
      if bool_decide ("created_utc" ∈ t_columns t) then
        match series_apply loaded_row (t_rows t) with
        | Ok rs => mkDataFrame (t_columns t) rs
        | Raise _ => pd_DataFrame
        end
      else pd_DataFrame
  | _ => pd_DataFrame
  end.

(** The store that [save_data df] leaves. *)
Definition saved (df : DataFrame) (d : DB) : DB :=
  if df_empty df then d
  else
    match d with
    | File (Some t) =>
        match filter (λ c, c ∉ t_columns t) (columns df) with
        | [] => File (Some (mkTable (t_columns t) (t_rows t ++ (sqlite_row <$> rows df))))
        | _ :: _ => d
        end
    | _ => File (Some (mkTable (columns df) (sqlite_row <$> rows df)))
    end.

(** The [created_utc] of the row converts. *)
Definition loadable (r : Row) : bool :=
  match to_datetime_s (cell "created_utc" r) with
  | Ok _ => true
  | Raise _ => false
  end.

(** A store as the pipeline leaves it: no file, no table, or a table that
    has the columns of a mention and whose rows all load. *)
Definition store_ok (d : DB) : bool :=
  match d with
  | File (Some t) =>
      forallb (λ c, bool_decide (c ∈ t_columns t)) mention_columns
      && forallb loadable (t_rows t)
  | _ => true
  end.

(** A row with its [created_utc] converted. *)
Definition stamp (r : Row) : Row :=
  match to_datetime_s (cell "created_utc" r) with
  | Ok ts => <["created_utc" := ts]> r
  | Raise _ => r
  end.

(** The fetched record is not in the store, by its id. *)
Definition is_new (d : DB) (r : Row) : bool :=
  negb (isin (cell "id" <$> stored d) (cell "id" r)).

(** The fetched records that are not in the store, in the order fetched. *)
Definition new_records (d : DB) : list Row :=
  filter (λ r, is_new d r = true) (fetched_records BRANDS SUBREDDITS POST_LIMIT).

(** The frame that the pipeline saves, and the store that it leaves. *)
Definition analyzed (d : DB) : DataFrame :=
  mkDataFrame mention_columns (score_record <$> new_records d).

Definition pipeline_db (d : DB) : DB := saved (analyzed d) d.

(** The [id] of the row is the string [i]. *)
Definition has_id (i : string) (r : Row) : bool := value_eqb (VStr i) (cell "id" r).

(** The mention that [fetch_reddit_mentions] makes of a post. *)
Definition mention_of_post (sub_name brand : string) (post : Post) : Mention :=
  mkMention (post_id post) brand (title post +:+ " " +:+ selftext post) sub_name
    (str_author (author post)) (created_utc post) 0 "Neutral"
    ("https://reddit.com" +:+ permalink post).

(** As [returns], and [lines] are the lines printed last. *)
Definition returns_printing {A : Type} (m : M A) (d : DB) (a : A) (d' : DB)
    (lines : list string) : Prop :=
  ∀ out, ∃ out', m (mkWorld d out) = (Ok a, mkWorld d' (out' ++ lines)).

(** A store that [run_update_pipeline] can read the ids of: no file, no
    table, or a table that has the columns [id] and [created_utc] and whose
    rows all load. *)
Definition store_readable (d : DB) : bool :=
  match d with
  | File (Some t) =>
      bool_decide ("id" ∈ t_columns t)
      && bool_decide ("created_utc" ∈ t_columns t)
      && forallb loadable (t_rows t)
  | _ => true
  end.

(** The line that [save_data df] prints. *)
Definition saved_line (df : DataFrame) : string :=
  "Successfully saved " +:+ pretty (len df) +:+ " new records to the '"
  +:+ TABLE_NAME +:+ "' table.".

Definition save_data_line (df : DataFrame) (d : DB) : string :=
  if df_empty df then "Dataframe is empty, nothing to save."
  else
    match d with
    | File (Some t) =>
        match filter (λ c, c ∉ t_columns t) (columns df) with
        | [] => saved_line df
        | c :: _ =>
            "An error occurred while saving data: table " +:+ TABLE_NAME
            +:+ " has no column named " +:+ c
        end
    | _ => saved_line df
    end.

(** The lines that [run_update_pipeline] prints last. *)
Definition pipeline_last_lines (d : DB) : list string :=
  match fetched_records BRANDS SUBREDDITS POST_LIMIT with
  | [] => ["No new data fetched from Reddit. Exiting."]
  | _ :: _ =>
      match new_records d with
      | [] => ["No new posts found since last update. Pipeline finished."]
      | _ :: _ =>
          [save_data_line (analyzed d) d; LF +:+ "--- Pipeline finished successfully! ---"]
      end
  end.

(** The label on the other side of Neutral. *)
Definition opposite_label (label : string) : string :=
  if bool_decide (label = "Positive") then "Negative"
  else if bool_decide (label = "Negative") then "Positive"
  else label.

End Model.

(** ** Worlds to run the model in *)

(** A post in r/hardware, created on 14 November 2023 at 22:13:20 UTC. *)
Definition demo_post (i : string) (t : string) : Post :=
  mkPost i t "body" (Some "someone") 1700000000 ("/r/hardware/comments/" +:+ i).

Definition post_A : Post := demo_post "A" "amazing product, love it".
Definition post_B : Post := demo_post "B" "terrible, broke immediately".
Definition post_C : Post := demo_post "C" "it arrived on Tuesday".

(** Scores for three texts: a positive one, a negative one, and zero. *)
Definition demo_compound (s : string) : float :=
  if bool_decide (s = "amazing product, love it body") then 0.8402%float
  else if bool_decide (s = "terrible, broke immediately body") then (-0.4767)%float
  else 0%float.

(** The search for NVIDIA in r/hardware yields [A], [B] and [C]; the other
    searches yield nothing. *)
Definition demo : Externals := {|
  compound := demo_compound;
  search := λ sub_name brand limit,
    if bool_decide (sub_name = "hardware") && bool_decide (brand = "NVIDIA")
    then mkSearchResults [post_A; post_B; post_C] None
    else mkSearchResults [] None;
  to_datetime_other := λ _, Raise (ValueError "non convertible value with the unit 's'");
  isoformat := λ _, "2023-11-14 22:13:20";
|}.

(** The post [A] mentions both brands: the two searches in r/hardware
    yield it. *)
Definition demo_two_brands : Externals := {|
  compound := demo_compound;
  search := λ sub_name brand limit,
    if bool_decide (sub_name = "hardware")
    then mkSearchResults [post_A] None
    else mkSearchResults [] None;
  to_datetime_other := λ _, Raise (ValueError "non convertible value with the unit 's'");
  isoformat := λ _, "2023-11-14 22:13:20";
|}.

(** The search for NVIDIA in r/hardware yields [A] and then fails; the
    search for NVIDIA in r/gaming yields [B]. *)
Definition demo_failing : Externals := {|
  compound := demo_compound;
  search := λ sub_name brand limit,
    if bool_decide (sub_name = "hardware") && bool_decide (brand = "NVIDIA")
    then mkSearchResults [post_A] (Some "received 503 HTTP response")
    else if bool_decide (sub_name = "gaming") && bool_decide (brand = "NVIDIA")
    then mkSearchResults [post_B] None
    else mkSearchResults [] None;
  to_datetime_other := λ _, Raise (ValueError "non convertible value with the unit 's'");
  isoformat := λ _, "2023-11-14 22:13:20";
|}.

(** Nothing stored, nothing printed. *)
Definition world_new : World := mkWorld NoFile [].

(** The store holds the post [A], scored. *)
Definition world_A : World :=
  mkWorld
    (File (Some (mkTable mention_columns
                   [<["sentiment_label" := VStr "Positive"]>
                      (<["sentiment_score" := VFloat 0.8402]>
                         (post_record "hardware" "NVIDIA" post_A))])))
    [].

(** A mention of AMD, not yet scored. *)
Definition demo_mention : Mention :=
  mkMention "D" "AMD" "new driver is out" "buildapc" "None" 1700000000 0 "Neutral"
    "https://reddit.com/r/buildapc/comments/D".

(** A frame with a [text] column, whose only row has no text: [None]. *)
Definition frame_text_none : DataFrame :=
  mkDataFrame ["id"; "text"] [<["text" := VNone]> {[ "id" := VStr "E" ]}].

(** The store holds the post [A] as the scraper returns it: the table has
    no column for the score and none for the label. *)
Definition table_unscored : Table :=
  mkTable ["id"; "brand"; "text"; "subreddit"; "author"; "created_utc"; "url"]
    [post_record "hardware" "NVIDIA" post_A].

Definition world_unscored : World := mkWorld (File (Some table_unscored)) [].

(** The table has a row and no [id] column. *)
Definition table_no_id : Table :=
  mkTable ["created_utc"] [{[ "created_utc" := VFloat 1700000000 ]}].

Definition world_no_id : World := mkWorld (File (Some table_no_id)) [].

(** The post [B] as the pipeline saves it, in a frame. *)
Definition frame_B : DataFrame :=
  mkDataFrame mention_columns
    [<["sentiment_label" := VStr "Negative"]>
       (<["sentiment_score" := VFloat (-0.4767)]> (post_record "hardware" "NVIDIA" post_B))].

(** The store holds the post [A] with a time, 10^19 seconds, that no
    [Timestamp] can count. *)
Definition table_out_of_bounds : Table :=
  mkTable mention_columns
    [<["created_utc" := VFloat 1e19]> (post_record "hardware" "NVIDIA" post_A)].

Definition world_out_of_bounds : World := mkWorld (File (Some table_out_of_bounds)) [].

(** * Properties *)

(** A name is one of a list of names that is written out. *)
Ltac in_columns := apply (bool_decide_unpack _); vm_compute; exact I.

Section Properties.
Context `{Externals}.

(** ** The monad *)

Lemma bind_run {A B : Type} (m : M A) (f : A → M B) (w : World) :
  (m ≫= f) w =
  match m w with
  | (Ok a, w') => f a w'
  | (Raise e, w') => (Raise e, w')
  end.
Proof. reflexivity. Qed.

Lemma print_run (s : string) (w : World) :
  print s w = (Ok (), mkWorld (db w) (stdout w ++ [s])).
Proof. reflexivity. Qed.

(** ** get_sentiment_label *)

Lemma leb_opposite_signs (s : float) :
  (0.05 <=? s)%float = true → (s <=? -0.05)%float = true → False.
Proof.
  rewrite !leb_spec.
  change (Prim2SF 0.05) with (S754_finite false 7205759403792794 (-57)).
  change (Prim2SF (-0.05)) with (S754_finite true 7205759403792794 (-57)).
  unfold SFleb, SFcompare.
  destruct (Prim2SF s) as [[]|[]| |[] m e]; try discriminate.
Qed.

Lemma digits2_pos_bounds (m : positive) :
  2 ^ (Z.pos (digits2_pos m) - 1) ≤ Z.pos m < 2 ^ Z.pos (digits2_pos m).
Proof.
  induction m as [m IH|m IH|]; cbn [digits2_pos].
  - rewrite Pos2Z.inj_succ.
    replace (Z.succ (Z.pos (digits2_pos m)) - 1) with (Z.succ (Z.pos (digits2_pos m) - 1)) by lia.
    rewrite !Z.pow_succ_r by lia. lia.
  - rewrite Pos2Z.inj_succ.
    replace (Z.succ (Z.pos (digits2_pos m)) - 1) with (Z.succ (Z.pos (digits2_pos m) - 1)) by lia.
    rewrite !Z.pow_succ_r by lia. lia.
  - simpl. lia.
Qed.

(** The mantissa of a binary64 float has 53 digits, or fewer at the least
    exponent. *)
Lemma bounded_binary64 (m : positive) (e : Z) :
  bounded prec emax m e = true →
  Z.pos m < 2 ^ 53 ∧ (-1074 < e → 2 ^ 52 ≤ Z.pos m).
Proof.
  unfold bounded, canonical_mantissa, fexp, emin, prec, emax.
  intros [Hc _]%andb_true_iff. apply Z.eqb_eq in Hc.
  pose proof (digits2_pos_bounds m) as [Hlo Hhi].
  assert (Hd : Z.pos (digits2_pos m) ≤ 53) by lia.
  split.
  - eapply Z.lt_le_trans; [exact Hhi|]. by apply Z.pow_le_mono_r.
  - intros He. assert (Z.pos (digits2_pos m) = 53) as Hd53 by lia.
    rewrite Hd53 in Hlo. exact Hlo.
Qed.

Lemma dyadic_ge_twentieth (m : positive) (e : Z) :
  bounded prec emax m e = true →
  (1 # 20 <= dyadic (Z.pos m) e)%Q ↔ (-57 < e ∨ (e = -57 ∧ 7205759403792794 ≤ Z.pos m)).
Proof.
  intros [Hhi Hlo]%bounded_binary64. unfold dyadic, Qle. cbn [Qnum Qden].
  destruct (Z.leb_spec 0 e) as [He|He]; cbn [inject_Z Qnum Qden].
  - assert (0 < 2 ^ e) by (by apply Z.pow_pos_nonneg). split; [lia|nia].
  - rewrite Z2Pos.id by (by apply Z.pow_pos_nonneg; lia).
    destruct (Z.lt_trichotomy e (-57)) as [Hlt|[->|Hgt]].
    + assert (2 ^ 58 ≤ 2 ^ (- e)) by (apply Z.pow_le_mono_r; lia).
      change (2 ^ 58) with 288230376151711744 in *. change (2 ^ 53) with 9007199254740992 in *. lia.
    + change (2 ^ (- -57)) with 144115188075855872. lia.
    + assert (2 ^ (- e) ≤ 2 ^ 56) by (apply Z.pow_le_mono_r; lia).
      assert (2 ^ 52 ≤ Z.pos m) by (apply Hlo; lia).
      change (2 ^ 56) with 72057594037927936 in *. change (2 ^ 52) with 4503599627370496 in *. lia.
Qed.

Lemma float_leb_twentieth (s : float) (q : Q) :
  float_value s = Some q →
  ((0.05 <=? s)%float = true ↔ (1 # 20 <= q)%Q)
  ∧ ((s <=? -0.05)%float = true ↔ (q <= -1 # 20)%Q).
Proof.
  unfold float_value. rewrite !leb_spec. pose proof (Prim2SF_valid s) as Hvalid.
  change (Prim2SF 0.05) with (S754_finite false 7205759403792794 (-57)).
  change (Prim2SF (-0.05)) with (S754_finite true 7205759403792794 (-57)).
  destruct (Prim2SF s) as [sg|sg| |sg m e]; try discriminate.
  - intros [= <-]. unfold SFleb, SFcompare, Qle. simpl. split; split; (discriminate || lia).
  - intros [= <-]. cbn [valid_binary] in Hvalid.
    pose proof (dyadic_ge_twentieth m e Hvalid) as Hdy.
    unfold SFleb, SFcompare. destruct sg.
    + (* a negative float *)
      split.
      * split; [discriminate|]. intros Hq. exfalso. revert Hq.
        unfold dyadic, Qle. destruct (0 <=? e); cbn [inject_Z Qnum Qden]; [|lia].
        assert (0 ≤ 2 ^ e) by (apply Z.pow_nonneg; lia). nia.
      * assert (Hopp : (dyadic (Z.neg m) e <= -1 # 20)%Q ↔ (1 # 20 <= dyadic (Z.pos m) e)%Q).
        { unfold dyadic, Qle. destruct (0 <=? e); cbn [inject_Z Qnum Qden]; lia. }
        rewrite Hopp, Hdy. clear Hopp Hdy Hvalid.
        destruct (Z.compare_spec e (-57)) as [->|Hlt|Hgt].
        -- rewrite Pos.compare_cont_spec. unfold Pos.switch_Eq.
           rewrite (Pos2Z.inj_compare m 7205759403792794).
           destruct (Z.compare_spec (Z.pos m) 7205759403792794) as [Hm|Hm|Hm];
             cbn [CompOpp]; (split; [try discriminate; lia|try reflexivity; lia]).
        -- split; [discriminate|lia].
        -- split; [lia|reflexivity].
    + split.
      * rewrite Hdy. clear Hdy Hvalid.
        destruct (Z.compare_spec (-57) e) as [<-|Hlt|Hgt].
        -- rewrite Pos.compare_cont_spec. unfold Pos.switch_Eq.
           rewrite (Pos2Z.inj_compare 7205759403792794 m).
           destruct (Z.compare_spec 7205759403792794 (Z.pos m)) as [Hm|Hm|Hm];
             (split; [try discriminate; lia|try reflexivity; lia]).
        -- split; [lia|reflexivity].
        -- split; [discriminate|lia].
      * split; [discriminate|]. intros Hq. exfalso. revert Hq.
        unfold dyadic, Qle. destruct (0 <=? e); cbn [inject_Z Qnum Qden]; [|lia].
        assert (0 ≤ 2 ^ e) by (apply Z.pow_nonneg; lia). nia.
Qed.

(** C1. [get_sentiment_label] answers Positive exactly for the scores
    [>= 0.05], Negative exactly for the scores [<= -0.05], and Neutral
    exactly for the others (a NaN among them). For a finite score the two
    comparisons of floats, against the floats nearest to 0.05 and -0.05,
    agree with the comparisons of the number that the score is against
    1/20 and -1/20. The two thresholds themselves are Positive and
    Negative, and zero is Neutral. *)
Theorem get_sentiment_label_thresholds (s : float) :
  (get_sentiment_label s = "Positive" ↔ (0.05 <=? s)%float = true)
  ∧ (get_sentiment_label s = "Negative" ↔ (s <=? -0.05)%float = true)
  ∧ (get_sentiment_label s = "Neutral" ↔
       (0.05 <=? s)%float = false ∧ (s <=? -0.05)%float = false)
  ∧ (∀ q : Q, float_value s = Some q →
       (get_sentiment_label s = "Positive" ↔ (1 # 20 <= q)%Q)
       ∧ (get_sentiment_label s = "Negative" ↔ (q <= -1 # 20)%Q)
       ∧ (get_sentiment_label s = "Neutral" ↔ (-1 # 20 < q)%Q ∧ (q < 1 # 20)%Q))
  ∧ get_sentiment_label 0.05 = "Positive"
  ∧ get_sentiment_label (-0.05) = "Negative"
  ∧ get_sentiment_label 0.0 = "Neutral".
Proof.
  pose proof (leb_opposite_signs s) as Hsigns.
  assert (Hfloat :
    (get_sentiment_label s = "Positive" ↔ (0.05 <=? s)%float = true)
    ∧ (get_sentiment_label s = "Negative" ↔ (s <=? -0.05)%float = true)
    ∧ (get_sentiment_label s = "Neutral" ↔
         (0.05 <=? s)%float = false ∧ (s <=? -0.05)%float = false)).
  { unfold get_sentiment_label.
    destruct (0.05 <=? s)%float eqn:Hpos; destruct (s <=? -0.05)%float eqn:Hneg;
      repeat split; intros; try discriminate; try reflexivity;
      try (exfalso; auto; fail); intuition discriminate. }
  destruct Hfloat as (Hpositive & Hnegative & Hneutral).
  split; [exact Hpositive|]. split; [exact Hnegative|]. split; [exact Hneutral|].
  split; [|repeat split; reflexivity].
  intros q Hq. destruct (float_leb_twentieth s q Hq) as [Hge Hle].
  split; [by rewrite Hpositive|]. split; [by rewrite Hnegative|].
  rewrite Hneutral. rewrite <- !not_true_iff_false, Hge, Hle.
  split.
  - intros [Hhi Hlo]. split; [by apply Qnot_le_lt|by apply Qnot_le_lt].
  - intros [Hlo Hhi]. split; by apply Qlt_not_le.
Qed.

(** ** Series and frames *)

Lemma series_apply_fmap {A B C : Type} (f : A → result B) (h : C → A) (g : C → B)
    (l : list C) :
  Forall (λ x, f (h x) = Ok (g x)) l → series_apply f (h <$> l) = Ok (g <$> l).
Proof.
  induction 1 as [|x l Hx _ IH]; csimpl; [reflexivity|].
  rewrite Hx, IH. reflexivity.
Qed.

Lemma series_apply_Raise {A B : Type} (f : A → result B) (l : list A) (e : exn) :
  series_apply f l = Raise e → ∃ x, x ∈ l ∧ f x = Raise e.
Proof.
  induction l as [|x l IH]; simpl; [discriminate|].
  destruct (f x) as [y|e'] eqn:Hx.
  - destruct (series_apply f l) as [ys|e'']; [discriminate|].
    intros [= ->]. destruct IH as (x' & Hin & Hx'); [reflexivity|].
    exists x'. split; [apply elem_of_cons; by right|assumption].
  - intros [= ->]. exists x. split; [apply elem_of_cons; by left|assumption].
Qed.

Lemma zip_with_fmap_self {A B C : Type} (f : A → B → C) (g : A → B) (l : list A) :
  zip_with f l (g <$> l) = (λ x, f x (g x)) <$> l.
Proof. induction l as [|x l IH]; csimpl; [reflexivity|by f_equal]. Qed.

Lemma has_column_setitem (df : DataFrame) (c : string) (series : list value) :
  has_column c (setitem df c series) = true.
Proof.
  unfold setitem, has_column. simpl. unfold has_column.
  destruct (bool_decide (c ∈ columns df)) eqn:Hc.
  - assumption.
  - apply bool_decide_eq_true. apply elem_of_app. right. apply list_elem_of_singleton.
    reflexivity.
Qed.

Lemma cell_insert_eq (c : string) (v : value) (r : Row) : cell c (<[c := v]> r) = v.
Proof. unfold cell. by rewrite lookup_insert_eq. Qed.

Lemma cell_insert_ne (c c' : string) (v : value) (r : Row) :
  c ≠ c' → cell c' (<[c := v]> r) = cell c' r.
Proof. intros Hne. unfold cell. by rewrite lookup_insert_ne. Qed.

Lemma result_bind_Ok {A B : Type} (x : A) (f : A → result B) : Ok x ≫= f = f x.
Proof. reflexivity. Qed.

Lemma getitem_Ok (df : DataFrame) (c : string) :
  has_column c df = true → getitem df c = Ok (cell c <$> rows df).
Proof. intros Hc. unfold getitem. by rewrite Hc. Qed.

(** ** add_sentiment_scores *)

Lemma add_sentiment_scores_Ok (df : DataFrame) :
  has_column "text" df = true →
  forallb text_is_str (rows df) = true →
  add_sentiment_scores df =
    Ok (mkDataFrame
          (with_column "sentiment_label" (with_column "sentiment_score" (columns df)))
          (score_record <$> rows df)).
Proof.
  intros Htext Hstr. unfold add_sentiment_scores.
  rewrite Htext. simpl negb. cbv iota.
  rewrite (getitem_Ok df "text" Htext), result_bind_Ok.
  assert (Hscores : series_apply polarity_compound (cell "text" <$> rows df)
                    = Ok ((λ r, VFloat (compound (text_of r))) <$> rows df)).
  { apply series_apply_fmap. apply Forall_forall. intros r Hr.
    rewrite forallb_forall in Hstr. specialize (Hstr r).
    rewrite <- list_elem_of_In in Hstr. specialize (Hstr Hr).
    unfold text_is_str, text_of, polarity_compound in *.
    destruct (cell "text" r); try discriminate. reflexivity. }
  rewrite Hscores, result_bind_Ok.
  rewrite getitem_Ok by apply has_column_setitem.
  rewrite result_bind_Ok.
  assert (Hrows1 : rows (setitem df "sentiment_score"
                           ((λ r, VFloat (compound (text_of r))) <$> rows df))
                   = (λ r, <["sentiment_score" := VFloat (compound (text_of r))]> r) <$> rows df).
  { unfold setitem. simpl. apply zip_with_fmap_self. }
  rewrite Hrows1. rewrite <- list_fmap_compose.
  rewrite (series_apply_fmap sentiment_label_of _
             (λ r, VStr (get_sentiment_label (compound (text_of r))))).
  2:{ apply Forall_forall. intros r _. unfold compose.
      by rewrite cell_insert_eq. }
  rewrite result_bind_Ok.
  f_equal. unfold setitem at 1. f_equal.
  rewrite Hrows1, zip_with_fmap_l, zip_with_fmap_self.
  reflexivity.
Qed.

Lemma series_apply_Ok_Forall {A B : Type} (f : A → result B) (l : list A) (ys : list B) :
  series_apply f l = Ok ys → Forall (λ x, ∃ y, f x = Ok y) l.
Proof.
  revert ys. induction l as [|x l IH]; simpl; intros ys Hys; [constructor|].
  destruct (f x) as [y|] eqn:Hx; [|discriminate].
  destruct (series_apply f l) as [zs|]; [|discriminate].
  constructor; [by exists y|by apply (IH zs)].
Qed.

(** When the scorer returns, its input had a [text] column of [str]. *)
Lemma add_sentiment_scores_Ok_inv (df df' : DataFrame) :
  add_sentiment_scores df = Ok df' →
  has_column "text" df = true ∧ forallb text_is_str (rows df) = true.
Proof.
  unfold add_sentiment_scores.
  destruct (has_column "text" df) eqn:Htext; simpl negb; cbv iota; [|discriminate].
  rewrite (getitem_Ok df "text" Htext), result_bind_Ok.
  destruct (series_apply polarity_compound (cell "text" <$> rows df)) as [scores|e] eqn:Hs;
    [|discriminate].
  intros _. split; [reflexivity|].
  apply series_apply_Ok_Forall in Hs. rewrite Forall_fmap in Hs.
  apply forallb_forall. intros r Hr. rewrite <- list_elem_of_In in Hr.
  rewrite Forall_forall in Hs. destruct (Hs r Hr) as [y Hy].
  unfold compose, polarity_compound in Hy. unfold text_is_str.
  destruct (cell "text" r); (discriminate || reflexivity).
Qed.

(** The scorer raises [ValueError] for a missing column only; what its
    library calls raise is a [TypeError]. *)
Lemma add_sentiment_scores_ValueError (df : DataFrame) (msg : string) :
  add_sentiment_scores df = Raise (ValueError msg) → has_column "text" df = false.
Proof.
  unfold add_sentiment_scores.
  destruct (has_column "text" df) eqn:Htext; simpl negb; cbv iota; [|reflexivity].
  rewrite (getitem_Ok df "text" Htext), result_bind_Ok.
  destruct (series_apply polarity_compound (cell "text" <$> rows df)) as [scores|e] eqn:Hs.
  - rewrite result_bind_Ok.
    rewrite getitem_Ok by apply has_column_setitem. rewrite result_bind_Ok.
    destruct (series_apply sentiment_label_of _) as [labels|e] eqn:Hl.
    + discriminate.
    + apply series_apply_Raise in Hl as (v & _ & Hv).
      unfold sentiment_label_of in Hv. intros [= ->]. destruct v; discriminate.
  - apply series_apply_Raise in Hs as (v & _ & Hv).
    unfold polarity_compound in Hv. intros [= ->]. destruct v; discriminate.
Qed.

(** C8, as the code has it. The scorer raises its [ValueError] exactly for
    an input with no [text] column, and nothing in it catches that error;
    for an input with a [text] column whose cells are all [str] it returns
    the input with every record scored and labelled. (A cell of [text] that
    is not a [str] makes the library raise a [TypeError].) *)
Theorem add_sentiment_scores_text_column (df : DataFrame) :
  (has_column "text" df = false ↔
     add_sentiment_scores df = Raise (ValueError "DataFrame must contain a 'text' column."))
  ∧ (∀ e, add_sentiment_scores df = Raise e →
          has_column "text" df = false ∨ forallb text_is_str (rows df) = false)
  ∧ (has_column "text" df = true →
     forallb text_is_str (rows df) = true →
     add_sentiment_scores df =
       Ok (mkDataFrame
             (with_column "sentiment_label" (with_column "sentiment_score" (columns df)))
             (score_record <$> rows df))).
Proof.
  split; [split|split].
  - intros Htext. unfold add_sentiment_scores. by rewrite Htext.
  - apply add_sentiment_scores_ValueError.
  - intros e He.
    destruct (has_column "text" df) eqn:Htext; [|by left]. right.
    destruct (forallb text_is_str (rows df)) eqn:Hstr; [|reflexivity].
    rewrite (add_sentiment_scores_Ok df Htext Hstr) in He. discriminate.
  - apply add_sentiment_scores_Ok.
Qed.

(** C9. What the scorer returns has the rows of its input, as many and in
    the same order, and each with the cells of its input in every column
    but [sentiment_score] and [sentiment_label]; the columns of the input
    keep their places, and no column but those two is new. It returns for
    every input with a [text] column of [str]. *)
Theorem add_sentiment_scores_frame (df : DataFrame) :
  (has_column "text" df = true → forallb text_is_str (rows df) = true →
   ∃ df', add_sentiment_scores df = Ok df')
  ∧ ∀ df', add_sentiment_scores df = Ok df' →
      length (rows df') = length (rows df)
      ∧ (∀ (i : nat) (r : Row), rows df !! i = Some r →
           ∃ r', rows df' !! i = Some r'
                 ∧ ∀ c, c ≠ "sentiment_score" → c ≠ "sentiment_label" → r' !! c = r !! c)
      ∧ columns df `prefix_of` columns df'
      ∧ (∀ c, c ∈ columns df' →
              c ∈ columns df ∨ c = "sentiment_score" ∨ c = "sentiment_label").
Proof.
  split.
  { intros Htext Hstr. eexists. by apply add_sentiment_scores_Ok. }
  intros df' Hdf'.
  destruct (add_sentiment_scores_Ok_inv df df' Hdf') as [Htext Hstr].
  rewrite (add_sentiment_scores_Ok df Htext Hstr) in Hdf'.
  injection Hdf' as <-. simpl.
  split; [by rewrite length_fmap|].
  split.
  { intros i r Hr. exists (score_record r). split.
    - by rewrite list_lookup_fmap, Hr.
    - intros c Hs Hl. unfold score_record.
      rewrite lookup_insert_ne by done. by rewrite lookup_insert_ne by done. }
  unfold with_column. split.
  - repeat case_bool_decide; try reflexivity.
    + by apply prefix_app_r.
    + by apply prefix_app_r.
    + rewrite <- (assoc_L (++)). by apply prefix_app_r.
  - intros c. repeat case_bool_decide; rewrite ?elem_of_app, ?list_elem_of_singleton;
      tauto.
Qed.

(** ** The store is append-only *)

Lemma extends_refl (d : DB) : extends d d.
Proof. split; [reflexivity|auto]. Qed.

Lemma extends_trans (d1 d2 d3 : DB) : extends d1 d2 → extends d2 d3 → extends d1 d3.
Proof. intros [H12 C12] [H23 C23]. split; [by etrans|auto]. Qed.

Lemma append_only_ret {A : Type} (a : A) : append_only (mret a).
Proof. intros w. apply extends_refl. Qed.

Lemma append_only_lift {A : Type} (r : result A) : append_only (lift r).
Proof. intros w. apply extends_refl. Qed.

Lemma append_only_print (s : string) : append_only (print s).
Proof. intros w. apply extends_refl. Qed.

Lemma append_only_bind {A B : Type} (m : M A) (f : A → M B) :
  append_only m → (∀ a, append_only (f a)) → append_only (m ≫= f).
Proof.
  intros Hm Hf w. rewrite bind_run. specialize (Hm w).
  destruct (m w) as [[a|e] w']; simpl in *; [|assumption].
  eapply extends_trans; [exact Hm|apply Hf].
Qed.

Lemma append_only_try_except {A : Type} (body : M A) (handler : exn → M A) :
  append_only body → (∀ e, append_only (handler e)) →
  append_only (try_except body handler).
Proof.
  intros Hb Hh w. unfold try_except. specialize (Hb w).
  destruct (body w) as [[a|e] w']; simpl in *; [assumption|].
  eapply extends_trans; [exact Hb|apply Hh].
Qed.

Lemma append_only_get_db_connection : append_only get_db_connection.
Proof.
  intros w. unfold get_db_connection.
  destruct (db w) as [|t] eqn:Hd; simpl; [|rewrite Hd; apply extends_refl].
  split; [apply prefix_nil|discriminate].
Qed.

Lemma append_only_to_sql (df : DataFrame) : append_only (to_sql df).
Proof.
  intros w. unfold to_sql.
  destruct (db w) as [|[t|]] eqn:Hd; simpl.
  - rewrite Hd. apply extends_refl.
  - destruct (filter _ _); simpl.
    + split; simpl; [by apply prefix_app_r|auto].
    + rewrite Hd. apply extends_refl.
  - split; [apply prefix_nil|discriminate].
Qed.

Lemma append_only_save_data (df : DataFrame) : append_only (save_data df).
Proof.
  unfold save_data. destruct (df_empty df); [apply append_only_print|].
  apply append_only_bind; [apply append_only_get_db_connection|intros _].
  apply append_only_try_except; [|intros e; apply append_only_print].
  apply append_only_bind; [apply append_only_to_sql|intros _; apply append_only_print].
Qed.

Lemma append_only_read_sql : append_only read_sql.
Proof.
  intros w. unfold read_sql. destruct (db w) as [|[t|]] eqn:Hd; simpl;
    rewrite Hd; apply extends_refl.
Qed.

Lemma append_only_load_data : append_only load_data.
Proof.
  unfold load_data. apply append_only_bind.
  { intros w. apply extends_refl. }
  intros file_exists. destruct (negb file_exists); [apply append_only_ret|].
  apply append_only_bind; [apply append_only_get_db_connection|intros _].
  apply append_only_try_except.
  - apply append_only_bind; [apply append_only_read_sql|intros df].
    apply append_only_bind; [apply append_only_lift|intros created].
    apply append_only_bind; [apply append_only_lift|intros created'].
    apply append_only_ret.
  - intros e. apply append_only_bind; [apply append_only_print|intros _].
    apply append_only_ret.
Qed.

Lemma append_only_for_each {A S : Type} (l : list A) (body : A → S → M S) (s : S) :
  (∀ x s', append_only (body x s')) → append_only (for_each l body s).
Proof.
  intros Hbody. revert s. induction l as [|x l IH]; intros s; simpl.
  - apply append_only_ret.
  - apply append_only_bind; [apply Hbody|apply IH].
Qed.

Lemma append_only_search_pair (sub_name brand : string) (limit : nat) (acc : list Row) :
  append_only (search_pair sub_name brand limit acc).
Proof.
  unfold search_pair. destruct (raised _); [|apply append_only_ret].
  apply append_only_bind; [apply append_only_print|intros _; apply append_only_ret].
Qed.

Lemma append_only_fetch_reddit_mentions (brands subreddits : list string) (limit : nat) :
  append_only (fetch_reddit_mentions brands subreddits limit).
Proof.
  unfold fetch_reddit_mentions.
  apply append_only_bind; [apply append_only_print|intros _].
  apply append_only_bind; [|intros all_posts_data; apply append_only_ret].
  apply append_only_for_each. intros sub_name acc.
  apply append_only_for_each. intros brand acc'.
  apply append_only_search_pair.
Qed.

Lemma append_only_run_update_pipeline : append_only run_update_pipeline.
Proof.
  unfold run_update_pipeline.
  apply append_only_bind; [apply append_only_print|intros _].
  apply append_only_bind; [apply append_only_print|intros _].
  apply append_only_bind; [apply append_only_load_data|intros existing_df].
  apply append_only_bind.
  { destruct (negb (df_empty existing_df)); [|apply append_only_ret].
    apply append_only_bind; [apply append_only_lift|intros ids; apply append_only_ret]. }
  intros existing_ids.
  apply append_only_bind; [apply append_only_print|intros _].
  apply append_only_bind; [apply append_only_print|intros _].
  apply append_only_bind; [apply append_only_fetch_reddit_mentions|intros latest_df].
  destruct (df_empty latest_df); [apply append_only_print|].
  apply append_only_bind; [apply append_only_print|intros _].
  apply append_only_bind; [apply append_only_lift|intros latest_ids].
  cbv zeta.
  destruct (df_empty (select latest_df _)); [apply append_only_print|].
  apply append_only_bind; [apply append_only_print|intros _].
  apply append_only_bind; [apply append_only_print|intros _].
  apply append_only_bind; [apply append_only_lift|intros analyzed_df].
  apply append_only_bind; [apply append_only_print|intros _].
  apply append_only_bind; [apply append_only_print|intros _].
  apply append_only_bind; [apply append_only_save_data|intros _].
  apply append_only_print.
Qed.

(** C4. Whatever the store holds and however the run ends, after
    [run_update_pipeline] the table begins with the rows it had before the
    run, each the same and at the same place, and it has the columns it
    had; the same holds of every call of [save_data]. *)
Theorem run_update_pipeline_append_only (w : World) :
  (stored (db w) `prefix_of` stored (db (snd (run_update_pipeline w)))
   ∧ ∀ cols, table_columns (db w) = Some cols →
             table_columns (db (snd (run_update_pipeline w))) = Some cols)
  ∧ ∀ df : DataFrame,
      stored (db w) `prefix_of` stored (db (snd (save_data df w)))
      ∧ ∀ cols, table_columns (db w) = Some cols →
                table_columns (db (snd (save_data df w))) = Some cols.
Proof.
  split.
  - apply append_only_run_update_pipeline.
  - intros df. apply append_only_save_data.
Qed.

(** ** fetch_reddit_mentions *)

Lemma foldl_append_fmap {A B : Type} (f : A → B) (l : list A) (acc : list B) :
  foldl (λ acc x, acc ++ [f x]) acc l = acc ++ (f <$> l).
Proof.
  revert acc. induction l as [|x l IH]; intros acc; csimpl.
  - by rewrite app_nil_r.
  - rewrite IH, <- (assoc_L (++)). reflexivity.
Qed.

Lemma search_pair_run (sub_name brand : string) (limit : nat) (acc : list Row) (w : World) :
  search_pair sub_name brand limit acc w =
    (Ok (acc ++ (post_record sub_name brand <$> yielded (search sub_name brand limit))),
     mkWorld (db w) (stdout w ++ search_error sub_name brand limit)).
Proof.
  unfold search_pair, search_error. rewrite foldl_append_fmap.
  destruct (raised (search sub_name brand limit)) as [e|].
  - reflexivity.
  - destruct w as [d out]. simpl. unfold mret, M_ret. by rewrite app_nil_r.
Qed.

Lemma for_each_brands_run (sub_name : string) (limit : nat) (brands : list string)
    (acc : list Row) (w : World) :
  for_each brands (λ brand, search_pair sub_name brand limit) acc w =
    (Ok (acc ++ (brand ← brands;
                 post_record sub_name brand <$> yielded (search sub_name brand limit))),
     mkWorld (db w) (stdout w ++ (brand ← brands; search_error sub_name brand limit))).
Proof.
  revert acc w. induction brands as [|brand brands IH]; intros acc w.
  - destruct w as [d out]. simpl. unfold mret, M_ret. by rewrite !app_nil_r.
  - cbn [for_each]. rewrite bind_run, search_pair_run, IH. simpl db. simpl stdout.
    rewrite !bind_cons, <- !(assoc_L (++)). reflexivity.
Qed.

Lemma for_each_subreddits_run (limit : nat) (brands subreddits : list string)
    (acc : list Row) (w : World) :
  for_each subreddits
    (λ sub_name, for_each brands (λ brand, search_pair sub_name brand limit)) acc w =
    (Ok (acc ++ fetched_records brands subreddits limit),
     mkWorld (db w) (stdout w ++ fetch_errors brands subreddits limit)).
Proof.
  unfold fetched_records, fetch_errors.
  revert acc w. induction subreddits as [|sub_name subreddits IH]; intros acc w.
  - destruct w as [d out]. simpl. unfold mret, M_ret. by rewrite !app_nil_r.
  - cbn [for_each]. rewrite bind_run, for_each_brands_run, IH. simpl db. simpl stdout.
    rewrite !bind_cons, <- !(assoc_L (++)). reflexivity.
Qed.

Lemma fetch_reddit_mentions_run (brands subreddits : list string) (limit : nat) (w : World) :
  fetch_reddit_mentions brands subreddits limit w =
    (Ok (DataFrame_of_records mention_columns (fetched_records brands subreddits limit)),
     mkWorld (db w)
       (stdout w ++ fetch_banner brands subreddits :: fetch_errors brands subreddits limit)).
Proof.
  unfold fetch_reddit_mentions. rewrite bind_run, print_run.
  rewrite bind_run, for_each_subreddits_run. simpl db. simpl stdout.
  rewrite <- (assoc_L (++)). reflexivity.
Qed.

(** C6, as the code has it. Whatever searches raise, [fetch_reddit_mentions]
    returns; its frame holds, for every subreddit and every brand in turn,
    the records of the posts that the search yielded, those yielded before
    it raised among them (none, when it raised before the first post); it
    prints one line for every search that raised, after its first line; and
    it leaves the store as it is. *)
Theorem fetch_reddit_mentions_failures (brands subreddits : list string) (limit : nat)
    (w : World) :
  fetch_reddit_mentions brands subreddits limit w =
    (Ok (DataFrame_of_records mention_columns (fetched_records brands subreddits limit)),
     mkWorld (db w)
       (stdout w ++ fetch_banner brands subreddits :: fetch_errors brands subreddits limit))
  ∧ (∀ sub_name brand e,
       sub_name ∈ subreddits → brand ∈ brands →
       raised (search sub_name brand limit) = Some e →
       ("Could not fetch from r/" +:+ sub_name +:+ ". Error: " +:+ e)
         ∈ fetch_errors brands subreddits limit)
  ∧ (∀ sub_name brand post,
       sub_name ∈ subreddits → brand ∈ brands →
       post ∈ yielded (search sub_name brand limit) →
       post_record sub_name brand post ∈ fetched_records brands subreddits limit).
Proof.
  split; [apply fetch_reddit_mentions_run|split].
  - intros sub_name brand e Hsub Hbrand He. unfold fetch_errors.
    apply list_elem_of_bind. exists sub_name. split; [|assumption].
    apply list_elem_of_bind. exists brand. split; [|assumption].
    unfold search_error. rewrite He. by apply list_elem_of_singleton.
  - intros sub_name brand post Hsub Hbrand Hpost. unfold fetched_records.
    apply list_elem_of_bind. exists sub_name. split; [|assumption].
    apply list_elem_of_bind. exists brand. split; [|assumption].
    by apply list_elem_of_fmap_2.
Qed.

(** ** What a computation returns, and the store it leaves *)

Lemma returns_ret {A : Type} (a : A) (d : DB) : returns (mret a) d a d.
Proof. intros out. by exists out. Qed.

Lemma returns_lift {A : Type} (r : result A) (a : A) (d : DB) :
  r = Ok a → returns (lift r) d a d.
Proof. intros -> out. by exists out. Qed.

Lemma returns_print (s : string) (d : DB) : returns (print s) d () d.
Proof. intros out. by eexists. Qed.

Lemma returns_bind {A B : Type} (m : M A) (f : A → M B) (d d1 d2 : DB) (a : A) (b : B) :
  returns m d a d1 → returns (f a) d1 b d2 → returns (m ≫= f) d b d2.
Proof.
  intros Hm Hf out. destruct (Hm out) as [out1 Hm1]. destruct (Hf out1) as [out2 Hf2].
  exists out2. by rewrite bind_run, Hm1.
Qed.

Lemma returns_run {A : Type} (m : M A) (w : World) (a : A) (d' : DB) :
  returns m (db w) a d' → fst (m w) = Ok a ∧ db (snd (m w)) = d'.
Proof.
  intros Hm. destruct w as [d out]. destruct (Hm out) as [out' Hrun].
  simpl in *. by rewrite Hrun.
Qed.

Lemma ret_run {A : Type} (a : A) (w : World) : (mret a : M A) w = (Ok a, w).
Proof. reflexivity. Qed.

Lemma lift_run {A : Type} (r : result A) (w : World) : lift r w = (r, w).
Proof. reflexivity. Qed.

Lemma try_except_run {A : Type} (body : M A) (handler : exn → M A) (w : World) :
  try_except body handler w =
    match body w with
    | (Ok a, w') => (Ok a, w')
    | (Raise e, w') => handler e w'
    end.
Proof. reflexivity. Qed.

Lemma os_path_exists_run (w : World) :
  os_path_exists_DB_FILE w =
    (Ok (match db w with NoFile => false | File _ => true end), w).
Proof. reflexivity. Qed.

Lemma get_db_connection_run (w : World) :
  get_db_connection w =
    (Ok (), mkWorld (match db w with NoFile => File None | d => d end) (stdout w)).
Proof. unfold get_db_connection. by destruct w as [[|t] out]. Qed.

Lemma read_sql_run (w : World) :
  read_sql w =
    (match db w with
     | File (Some t) => Ok (mkDataFrame (t_columns t) (t_rows t))
     | _ => Raise (DatabaseError ("Execution failed on sql 'SELECT * FROM " +:+ TABLE_NAME
                                  +:+ "': no such table: " +:+ TABLE_NAME))
     end, w).
Proof. unfold read_sql. by destruct (db w) as [|[t|]]. Qed.

(** ** load_data *)

Lemma series_apply_loaded_row (rs : list Row) :
  series_apply loaded_row rs =
    match series_apply to_datetime_s (cell "created_utc" <$> rs) with
    | Ok ts => Ok (zip_with (λ r v, <["created_utc" := v]> r) rs ts)
    | Raise e => Raise e
    end.
Proof.
  induction rs as [|r rs IH]; csimpl; [reflexivity|].
  unfold loaded_row at 1.
  destruct (to_datetime_s (cell "created_utc" r)) as [ts|e]; [|reflexivity].
  rewrite IH. by destruct (series_apply to_datetime_s _).
Qed.

Lemma returns_load_data (d : DB) : returns load_data d (loaded d) d.
Proof.
  intros out. unfold load_data. rewrite bind_run, os_path_exists_run. cbn [db].
  destruct d as [|[t|]]; cbn [negb loaded].
  - by eexists.
  - rewrite bind_run, get_db_connection_run, try_except_run, bind_run, read_sql_run.
    cbn [db columns rows].
    rewrite bind_run, lift_run.
    unfold getitem, has_column. cbn [columns rows].
    destruct (bool_decide ("created_utc" ∈ t_columns t)) eqn:Hc.
    + rewrite bind_run, lift_run, series_apply_loaded_row.
      destruct (series_apply to_datetime_s _) as [ts|e].
      * eexists. rewrite ret_run. unfold setitem, has_column. cbn [columns rows].
        rewrite Hc. reflexivity.
      * rewrite bind_run, print_run. by eexists.
    + rewrite bind_run, print_run. by eexists.
  - rewrite bind_run, get_db_connection_run, try_except_run, bind_run, read_sql_run.
    cbn [db]. rewrite bind_run, print_run. by eexists.
Qed.

(** C7. When there is no database file, and when the file has no table,
    [load_data] returns the empty frame, which has no row, and raises
    nothing; the store is as it was. In no state of the store does
    [load_data] raise. *)
Theorem load_data_empty_store (out : list string) :
  fst (load_data (mkWorld NoFile out)) = Ok pd_DataFrame
  ∧ fst (load_data (mkWorld (File None) out)) = Ok pd_DataFrame
  ∧ rows pd_DataFrame = []
  ∧ snd (load_data (mkWorld NoFile out)) = mkWorld NoFile out
  ∧ db (snd (load_data (mkWorld (File None) out))) = File None
  ∧ ∀ w, ∃ df, fst (load_data w) = Ok df.
Proof.
  repeat split.
  intros w. exists (loaded (db w)).
  by destruct (returns_run load_data w _ _ (returns_load_data (db w))).
Qed.

(** ** save_data *)

Lemma returns_save_data (df : DataFrame) (d : DB) :
  returns (save_data df) d () (saved df d).
Proof.
  intros out. unfold save_data, saved.
  destruct (df_empty df); [by eexists|].
  rewrite bind_run, get_db_connection_run, try_except_run, bind_run.
  unfold to_sql. cbn [db stdout].
  destruct d as [|[t|]].
  - rewrite print_run. by eexists.
  - destruct (filter _ _).
    + rewrite print_run. by eexists.
    + rewrite print_run. by eexists.
  - rewrite print_run. by eexists.
Qed.

(** ** The records of the scraper *)

Lemma fetched_records_post (brands subreddits : list string) (limit : nat) (r : Row) :
  r ∈ fetched_records brands subreddits limit →
  ∃ sub_name brand post, r = post_record sub_name brand post.
Proof.
  unfold fetched_records. intros Hr.
  apply list_elem_of_bind in Hr as (sub_name & Hr & _).
  apply list_elem_of_bind in Hr as (brand & Hr & _).
  apply list_elem_of_fmap in Hr as (post & -> & _). eauto.
Qed.

Lemma post_record_id (sub_name brand : string) (post : Post) :
  cell "id" (post_record sub_name brand post) = VStr (post_id post).
Proof. reflexivity. Qed.

Lemma post_record_text (sub_name brand : string) (post : Post) :
  text_is_str (post_record sub_name brand post) = true.
Proof. reflexivity. Qed.

Lemma score_record_cell (c : string) (r : Row) :
  c ≠ "sentiment_score" → c ≠ "sentiment_label" → cell c (score_record r) = cell c r.
Proof.
  intros Hs Hl. unfold score_record.
  rewrite cell_insert_ne by done. by rewrite cell_insert_ne by done.
Qed.

Lemma sqlite_row_score_record (sub_name brand : string) (post : Post) :
  sqlite_row (score_record (post_record sub_name brand post))
  = score_record (post_record sub_name brand post).
Proof.
  apply map_eq. intros c. unfold sqlite_row, score_record.
  rewrite lookup_fmap.
  destruct (decide (c = "sentiment_label")) as [->|Hl].
  { by rewrite lookup_insert_eq. }
  rewrite lookup_insert_ne by done.
  destruct (decide (c = "sentiment_score")) as [->|Hs].
  { by rewrite lookup_insert_eq. }
  rewrite lookup_insert_ne by done.
  unfold post_record. cbn [list_to_map foldr fst snd uncurry].
  repeat (rewrite lookup_insert; case_decide; [reflexivity|]).
  by rewrite lookup_empty.
Qed.

(** ** The stores that the pipeline makes *)

Lemma store_ok_columns (t : Table) (c : string) :
  store_ok (File (Some t)) = true → c ∈ mention_columns → c ∈ t_columns t.
Proof.
  unfold store_ok. intros [Hcols _]%andb_true_iff Hc.
  rewrite forallb_forall in Hcols. apply list_elem_of_In in Hc.
  specialize (Hcols c Hc). by apply bool_decide_eq_true in Hcols.
Qed.

Lemma filter_none {A : Type} (P : A → Prop) `{!∀ x, Decision (P x)} (l : list A) :
  Forall (λ x, ¬ P x) l → filter P l = [].
Proof.
  induction 1 as [|x l Hx _ IH]; [reflexivity|].
  by rewrite filter_cons_False.
Qed.

Lemma store_ok_fits (t : Table) :
  store_ok (File (Some t)) = true →
  filter (λ c, c ∉ t_columns t) mention_columns = [].
Proof.
  intros Hok. apply filter_none. apply Forall_forall. intros c Hc Hnot.
  apply Hnot. by apply store_ok_columns.
Qed.

Lemma series_apply_loadable (rs : list Row) :
  forallb loadable rs = true → series_apply loaded_row rs = Ok (stamp <$> rs).
Proof.
  intros Hrs. rewrite <- (list_fmap_id rs) at 1. apply series_apply_fmap.
  apply Forall_forall. intros r Hr. rewrite forallb_forall in Hrs.
  apply list_elem_of_In in Hr. specialize (Hrs r Hr).
  unfold loadable in Hrs. unfold loaded_row, stamp, id.
  by destruct (to_datetime_s (cell "created_utc" r)).
Qed.

Lemma loaded_store_ok (t : Table) :
  store_ok (File (Some t)) = true →
  loaded (File (Some t)) = mkDataFrame (t_columns t) (stamp <$> t_rows t).
Proof.
  intros Hok. unfold loaded.
  rewrite bool_decide_eq_true_2.
  2:{ apply (store_ok_columns t _ Hok). in_columns. }
  unfold store_ok in Hok. apply andb_true_iff in Hok as [_ Hrows].
  by rewrite series_apply_loadable.
Qed.

Lemma stamp_cell (c : string) (r : Row) : c ≠ "created_utc" → cell c (stamp r) = cell c r.
Proof.
  intros Hc. unfold stamp. destruct (to_datetime_s _); [|reflexivity].
  by rewrite cell_insert_ne.
Qed.

(** ** The ids already in the store *)

Lemma value_eqb_str (s : string) (v : value) :
  value_eqb (VStr s) v = true ↔ v = VStr s.
Proof.
  destruct v; simpl; split; try discriminate.
  - intros ->%bool_decide_eq_true. reflexivity.
  - intros [= ->]. by apply bool_decide_eq_true.
Qed.

Lemma isin_str (values : list value) (s : string) :
  isin values (VStr s) = true ↔ VStr s ∈ values.
Proof.
  unfold isin. rewrite existsb_exists. split.
  - intros (v & Hv & ->%value_eqb_str). by apply list_elem_of_In.
  - intros Hin. exists (VStr s). split; [by apply list_elem_of_In|by apply value_eqb_str].
Qed.

Lemma isin_py_set_str (series : list value) (s : string) :
  isin (py_set series) (VStr s) = isin series (VStr s).
Proof.
  induction series as [|v series IH]; [reflexivity|].
  cbn [py_set]. destruct (isin (py_set series) v) eqn:Hv.
  - rewrite IH. cbn [isin existsb].
    destruct (value_eqb (VStr s) v) eqn:Hs; [|reflexivity].
    apply value_eqb_str in Hs as ->. by rewrite <- IH, Hv.
  - unfold isin in *. cbn [existsb]. by rewrite IH.
Qed.

Lemma select_rows (df : DataFrame) (p : Row → bool) :
  rows (select df (p <$> rows df)) = filter (λ r, p r = true) (rows df).
Proof.
  unfold select. cbn [rows].
  induction (rows df) as [|r rs IH]; [reflexivity|]. csimpl.
  rewrite filter_cons. cbn [snd].
  destruct (decide (p r = true)) as [Hp|Hp].
  - rewrite filter_cons_True by done. csimpl. by rewrite IH.
  - rewrite filter_cons_False by done. exact IH.
Qed.

Lemma filter_ext_Forall {A : Type} (P Q : A → Prop) `{!∀ x, Decision (P x)}
    `{!∀ x, Decision (Q x)} (l : list A) :
  Forall (λ x, P x ↔ Q x) l → filter P l = filter Q l.
Proof.
  induction 1 as [|x l Hx _ IH]; [reflexivity|].
  rewrite !filter_cons, IH.
  destruct (decide (P x)), (decide (Q x)); tauto.
Qed.

(** ** run_update_pipeline *)

Lemma df_empty_mention_columns (rs : list Row) :
  df_empty (mkDataFrame mention_columns rs) = match rs with [] => true | _ => false end.
Proof. by destruct rs. Qed.

Lemma returns_fetch_reddit_mentions (brands subreddits : list string) (limit : nat) (d : DB) :
  returns (fetch_reddit_mentions brands subreddits limit) d
    (DataFrame_of_records mention_columns (fetched_records brands subreddits limit)) d.
Proof. intros out. rewrite fetch_reddit_mentions_run. by eexists. Qed.

Lemma returns_existing_ids (d : DB) :
  store_ok d = true →
  returns
    (if negb (df_empty (loaded d)) then
       ids ← lift (getitem (loaded d) "id"); mret (py_set ids)
     else mret [])
    d (py_set (cell "id" <$> stored d)) d.
Proof.
  intros Hok. destruct d as [|[t|]]; try apply returns_ret.
  rewrite (loaded_store_ok t Hok). cbn [stored].
  destruct (t_rows t) as [|r rs] eqn:Hrows.
  { unfold df_empty. cbn [rows columns fmap list_fmap].
    destruct (t_columns t); apply returns_ret. }
  assert (Hid : "id" ∈ t_columns t) by (apply (store_ok_columns t _ Hok); in_columns).
  assert (Hne : df_empty (mkDataFrame (t_columns t) (stamp <$> r :: rs)) = false).
  { unfold df_empty. cbn [rows columns]. destruct (t_columns t); [|reflexivity].
    by apply elem_of_nil in Hid. }
  rewrite Hne. cbn [negb].
  eapply returns_bind; [|apply returns_ret].
  apply returns_lift. rewrite getitem_Ok by (by apply bool_decide_eq_true).
  cbn [rows]. rewrite <- list_fmap_compose. f_equal.
  apply list_fmap_ext. intros i r' _. unfold compose. by apply stamp_cell.
Qed.

Lemma new_records_text : ∀ d, forallb text_is_str (new_records d) = true.
Proof.
  intros d. apply forallb_forall. intros r Hr%list_elem_of_In.
  apply list_elem_of_filter in Hr as [_ Hr].
  apply fetched_records_post in Hr as (sub_name & brand & post & ->).
  apply post_record_text.
Qed.

Lemma new_records_select (d : DB) :
  select (mkDataFrame mention_columns (fetched_records BRANDS SUBREDDITS POST_LIMIT))
    (negb <$> (isin (py_set (cell "id" <$> stored d)) <$>
                 (cell "id" <$> fetched_records BRANDS SUBREDDITS POST_LIMIT)))
  = mkDataFrame mention_columns (new_records d).
Proof.
  rewrite <- !list_fmap_compose.
  pose proof (select_rows
                (mkDataFrame mention_columns (fetched_records BRANDS SUBREDDITS POST_LIMIT))
                (negb ∘ isin (py_set (cell "id" <$> stored d)) ∘ cell "id")) as Hsel.
  cbn [rows] in Hsel.
  unfold select in *. cbn [rows columns] in *. f_equal. rewrite Hsel.
  unfold new_records. apply filter_ext_Forall. apply Forall_forall. intros r Hr.
  apply fetched_records_post in Hr as (sub_name & brand & post & ->).
  unfold is_new, compose. by rewrite post_record_id, isin_py_set_str.
Qed.

Lemma returns_run_update_pipeline (d : DB) :
  store_ok d = true → returns run_update_pipeline d () (pipeline_db d).
Proof.
  intros Hok. unfold run_update_pipeline.
  eapply returns_bind; [apply returns_print|].
  eapply returns_bind; [apply returns_print|].
  eapply returns_bind; [apply returns_load_data|].
  eapply returns_bind; [by apply returns_existing_ids|].
  eapply returns_bind; [apply returns_print|].
  eapply returns_bind; [apply returns_print|].
  eapply returns_bind; [apply returns_fetch_reddit_mentions|].
  unfold pipeline_db, analyzed, saved.
  destruct (fetched_records BRANDS SUBREDDITS POST_LIMIT) as [|r0 rs0] eqn:Hf.
  { unfold new_records. rewrite Hf. apply returns_print. }
  cbn [DataFrame_of_records]. rewrite <- Hf.
  replace (df_empty (mkDataFrame mention_columns (fetched_records BRANDS SUBREDDITS POST_LIMIT)))
    with false by (by rewrite Hf).
  eapply returns_bind; [apply returns_print|].
  eapply returns_bind; [apply returns_lift; by apply getitem_Ok|].
  cbn [rows]. cbv zeta. rewrite new_records_select.
  rewrite !df_empty_mention_columns.
  destruct (new_records d) as [|r1 rs1] eqn:Hnew; [apply returns_print|].
  cbn [fmap list_fmap]. rewrite <- Hnew.
  eapply returns_bind; [apply returns_print|].
  eapply returns_bind; [apply returns_print|].
  eapply returns_bind.
  { apply returns_lift. unfold copy. apply add_sentiment_scores_Ok; [reflexivity|].
    apply new_records_text. }
  eapply returns_bind; [apply returns_print|].
  eapply returns_bind; [apply returns_print|].
  eapply returns_bind; [|apply returns_print].
  cbn [columns rows].
  change (with_column "sentiment_label" (with_column "sentiment_score" mention_columns))
    with mention_columns.
  pose proof (returns_save_data (mkDataFrame mention_columns (score_record <$> new_records d)) d)
    as Hsave.
  unfold saved in Hsave. rewrite df_empty_mention_columns in Hsave.
  rewrite Hnew in Hsave |- *. exact Hsave.
Qed.

Lemma sqlite_row_new_records (d : DB) :
  sqlite_row <$> (score_record <$> new_records d) = score_record <$> new_records d.
Proof.
  rewrite <- list_fmap_compose. apply list_fmap_ext. intros i r Hr.
  apply list_elem_of_lookup_2, list_elem_of_filter in Hr as [_ Hr].
  apply fetched_records_post in Hr as (sub_name & brand & post & ->).
  apply sqlite_row_score_record.
Qed.

Lemma stored_pipeline_db (d : DB) :
  store_ok d = true →
  stored (pipeline_db d) = stored d ++ (score_record <$> new_records d).
Proof.
  intros Hok. unfold pipeline_db, analyzed, saved.
  rewrite df_empty_mention_columns. cbn [columns rows].
  destruct (score_record <$> new_records d) as [|r rs] eqn:Hnew.
  { by rewrite app_nil_r. }
  rewrite <- Hnew, sqlite_row_new_records.
  destruct d as [|[t|]]; try reflexivity.
  by rewrite (store_ok_fits t Hok).
Qed.

Lemma loadable_score_record (r : Row) : loadable (score_record r) = loadable r.
Proof. unfold loadable. by rewrite score_record_cell. Qed.

(** The stores of [store_ok] are those that the pipeline makes: it starts
    from no file, and a run on such a store leaves such a store, when the
    timestamps of the fetched posts convert. *)
Lemma store_ok_pipeline_db (d : DB) :
  store_ok d = true →
  forallb loadable (fetched_records BRANDS SUBREDDITS POST_LIMIT) = true →
  store_ok (pipeline_db d) = true.
Proof.
  intros Hok Hfetched.
  assert (Hnew : forallb loadable (sqlite_row <$> (score_record <$> new_records d)) = true).
  { rewrite sqlite_row_new_records. apply forallb_forall. intros r' Hr'%list_elem_of_In.
    apply list_elem_of_fmap in Hr' as (r & -> & Hr).
    apply list_elem_of_filter in Hr as [_ Hr].
    rewrite loadable_score_record. rewrite forallb_forall in Hfetched.
    apply Hfetched. by apply list_elem_of_In. }
  unfold pipeline_db, analyzed, saved.
  rewrite df_empty_mention_columns. cbn [columns rows].
  destruct (score_record <$> new_records d) as [|r rs] eqn:Hrs; [assumption|].
  rewrite <- Hrs in *. clear Hrs.
  destruct d as [|[t|]].
  - cbn [store_ok t_columns t_rows]. rewrite Hnew. reflexivity.
  - rewrite (store_ok_fits t Hok). cbn [store_ok t_columns t_rows] in *.
    apply andb_true_iff in Hok as [Hcols Hrows].
    rewrite Hcols, forallb_app, Hrows, Hnew. reflexivity.
  - cbn [store_ok t_columns t_rows]. rewrite Hnew. reflexivity.
Qed.

Lemma new_records_elem (d : DB) (r : Row) :
  r ∈ new_records d ↔
    r ∈ fetched_records BRANDS SUBREDDITS POST_LIMIT
    ∧ cell "id" r ∉ (cell "id" <$> stored d).
Proof.
  unfold new_records. rewrite list_elem_of_filter. split.
  - intros [Hnew Hr]. split; [assumption|].
    destruct (fetched_records_post _ _ _ _ Hr) as (sub_name & brand & post & ->).
    unfold is_new in Hnew. rewrite post_record_id in *.
    apply negb_true_iff in Hnew. rewrite <- isin_str. by rewrite Hnew.
  - intros [Hr Hid]. split; [|assumption].
    destruct (fetched_records_post _ _ _ _ Hr) as (sub_name & brand & post & ->).
    unfold is_new. rewrite post_record_id in *.
    apply negb_true_iff. rewrite <- isin_str in Hid. by destruct (isin _ _).
Qed.

Lemma run_update_pipeline_persists_new_db (w : World) :
  store_ok (db w) = true →
  fst (run_update_pipeline w) = Ok ()
  ∧ stored (db (snd (run_update_pipeline w)))
    = stored (db w) ++ (score_record <$> new_records (db w)).
Proof.
  intros Hok.
  destruct (returns_run _ w _ _ (returns_run_update_pipeline (db w) Hok)) as [Hret Hdb].
  split; [assumption|]. rewrite Hdb. by apply stored_pipeline_db.
Qed.

(** C2. On a store that the pipeline made, [run_update_pipeline] returns,
    and it appends to the table the fetched records whose [id] no stored
    row has, each with its score and its label, in the order fetched, and
    nothing else. *)
Theorem run_update_pipeline_persists_new (w : World) :
  store_ok (db w) = true →
  fst (run_update_pipeline w) = Ok ()
  ∧ stored (db (snd (run_update_pipeline w)))
    = stored (db w) ++ (score_record <$> new_records (db w))
  ∧ ∀ r, r ∈ new_records (db w) ↔
           r ∈ fetched_records BRANDS SUBREDDITS POST_LIMIT
           ∧ cell "id" r ∉ (cell "id" <$> stored (db w)).
Proof.
  intros Hok.
  destruct (run_update_pipeline_persists_new_db w Hok) as [Hret Hstored].
  split; [assumption|]. split; [assumption|apply new_records_elem].
Qed.

Lemma new_records_pipeline_db (d : DB) :
  store_ok d = true → new_records (pipeline_db d) = [].
Proof.
  intros Hok. unfold new_records at 1. apply filter_none. apply Forall_forall.
  intros r Hr. unfold is_new. rewrite (stored_pipeline_db d Hok).
  destruct (fetched_records_post _ _ _ _ Hr) as (sub_name & brand & post & Hpost).
  assert (Hin : cell "id" r ∈ cell "id" <$> stored d ++ (score_record <$> new_records d)).
  { rewrite fmap_app, elem_of_app.
    destruct (isin (cell "id" <$> stored d) (cell "id" r)) eqn:Hold.
    { left. rewrite Hpost, post_record_id in *. by apply isin_str. }
    right. rewrite <- list_fmap_compose. apply list_elem_of_fmap. exists r. split.
    - unfold compose. by rewrite score_record_cell.
    - apply new_records_elem. split; [assumption|].
      rewrite Hpost, post_record_id in *. rewrite <- isin_str. by rewrite Hold. }
  rewrite Hpost, post_record_id in *. apply isin_str in Hin. by rewrite Hin.
Qed.

(** C3. On a store that the pipeline made, with posts whose timestamps
    convert, a second run of [run_update_pipeline] with the same searches
    leaves the store that the first run left: it appends no row. *)
Theorem run_update_pipeline_idempotent (w : World) :
  store_ok (db w) = true →
  forallb loadable (fetched_records BRANDS SUBREDDITS POST_LIMIT) = true →
  fst (run_update_pipeline (snd (run_update_pipeline w))) = Ok ()
  ∧ db (snd (run_update_pipeline (snd (run_update_pipeline w))))
    = db (snd (run_update_pipeline w)).
Proof.
  intros Hok Hfetched.
  destruct (returns_run _ w _ _ (returns_run_update_pipeline (db w) Hok)) as [_ Hdb1].
  pose proof (store_ok_pipeline_db (db w) Hok Hfetched) as Hok1.
  rewrite <- Hdb1 in Hok1.
  destruct (returns_run _ _ _ _ (returns_run_update_pipeline _ Hok1)) as [Hret2 Hdb2].
  split; [assumption|]. rewrite Hdb2, Hdb1.
  unfold pipeline_db at 1. unfold analyzed.
  rewrite (new_records_pipeline_db (db w) Hok). reflexivity.
Qed.

(** ** Records that share an id *)

Lemma filter_fmap_comm {A B : Type} (f : A → B) (P : B → Prop) (Q : A → Prop)
    `{!∀ y, Decision (P y)} `{!∀ x, Decision (Q x)} (l : list A) :
  (∀ x, P (f x) ↔ Q x) → filter P (f <$> l) = f <$> filter Q l.
Proof.
  intros HPQ. induction l as [|x l IH]; [reflexivity|]. csimpl.
  rewrite !filter_cons, IH.
  destruct (decide (P (f x))) as [HP|HP], (decide (Q x)) as [HQ|HQ];
    try reflexivity; exfalso; apply HPQ in HP || apply HPQ in HQ; contradiction.
Qed.

(** C10. On a store that the pipeline made, the rows that one run appends
    with an [id] that no stored row has are the fetched records with that
    [id], all of them, as many times as they were fetched and in that
    order, each with its score and its label: records of one batch are not
    compared with each other. *)
Theorem run_update_pipeline_keeps_batch_duplicates (w : World) (i : string) :
  store_ok (db w) = true →
  VStr i ∉ (cell "id" <$> stored (db w)) →
  ∃ appended,
    stored (db (snd (run_update_pipeline w))) = stored (db w) ++ appended
    ∧ filter (λ r, has_id i r = true) appended
      = score_record <$> filter (λ r, has_id i r = true)
                           (fetched_records BRANDS SUBREDDITS POST_LIMIT)
    ∧ length (filter (λ r, has_id i r = true) appended)
      = length (filter (λ r, has_id i r = true)
                  (fetched_records BRANDS SUBREDDITS POST_LIMIT)).
Proof.
  intros Hok Hfresh. exists (score_record <$> new_records (db w)).
  destruct (run_update_pipeline_persists_new_db w Hok) as [_ Hstored].
  split; [assumption|].
  assert (Heq : filter (λ r, has_id i r = true) (score_record <$> new_records (db w))
                = score_record <$> filter (λ r, has_id i r = true)
                                     (fetched_records BRANDS SUBREDDITS POST_LIMIT)).
  { rewrite (filter_fmap_comm score_record _ (λ r, has_id i r = true)).
    2:{ intros r. unfold has_id. by rewrite score_record_cell. }
    f_equal. unfold new_records. apply list_filter_filter_l.
    intros r Hr. unfold has_id in Hr. apply value_eqb_str in Hr.
    unfold is_new. rewrite Hr. apply negb_true_iff.
    rewrite <- isin_str in Hfresh. by destruct (isin _ _). }
  split; [assumption|]. by rewrite Heq, length_fmap.
Qed.

(** ** Writing a mention and reading it back *)

(** The whole number of [whole_number] is the number that the float is. *)
Lemma whole_number_value (f : float) (z : Z) :
  whole_number f = Some z → ∃ q, float_value f = Some q ∧ (q == inject_Z z)%Q.
Proof.
  unfold whole_number, float_value, dyadic.
  destruct (Prim2SF f) as [sg|sg| |sg m e]; try discriminate.
  - intros [= <-]. by exists 0%Q.
  - cbv zeta. destruct (Z.leb_spec 0 e) as [He|He].
    + intros [= <-]. eexists. split; reflexivity.
    + destruct (Z.eqb_spec ((if sg then Z.neg m else Z.pos m) mod 2 ^ (- e)) 0) as [Hmod|Hmod];
        [|discriminate].
      intros [= <-]. eexists. split; [reflexivity|].
      unfold Qeq. cbn [Qnum Qden inject_Z].
      assert (Hpow : 0 < 2 ^ (- e)) by (apply Z.pow_pos_nonneg; lia).
      rewrite Z2Pos.id by exact Hpow.
      rewrite Z.mul_1_r.
      rewrite (Z.div_mod (if sg then Z.neg m else Z.pos m) (2 ^ (- e))) at 1 by lia.
      rewrite Hmod. lia.
Qed.

Lemma to_datetime_s_whole (f : float) (secs : Z) :
  whole_number f = Some secs →
  Timestamp_min ≤ secs * 10 ^ 9 ≤ Timestamp_max →
  to_datetime_s (VFloat f) = Ok (VTimestamp (secs * 10 ^ 9)).
Proof.
  intros Hsecs [Hmin Hmax]. unfold to_datetime_s. rewrite Hsecs. cbv zeta.
  apply Z.leb_le in Hmin, Hmax. by rewrite Hmin, Hmax.
Qed.

Lemma mention_record_created_utc (m : Mention) :
  cell "created_utc" (mention_record m) = VFloat (m_created_utc m).
Proof. reflexivity. Qed.

Lemma sqlite_row_mention_record (m : Mention) :
  sqlite_row (mention_record m) = mention_record m.
Proof.
  apply map_eq. intros c. unfold sqlite_row. rewrite lookup_fmap.
  unfold mention_record. cbn [list_to_map foldr fst snd uncurry].
  repeat (rewrite lookup_insert; case_decide; [reflexivity|]).
  by rewrite lookup_empty.
Qed.

Lemma to_datetime_s_whole_inv (f : float) (secs : Z) (ts : value) :
  whole_number f = Some secs →
  to_datetime_s (VFloat f) = Ok ts →
  ts = VTimestamp (secs * 10 ^ 9) ∧ Timestamp_min ≤ secs * 10 ^ 9 ≤ Timestamp_max.
Proof.
  intros Hsecs. unfold to_datetime_s. rewrite Hsecs. cbv zeta.
  destruct (Timestamp_min <=? secs * 10 ^ 9) eqn:Hmin;
    destruct (secs * 10 ^ 9 <=? Timestamp_max) eqn:Hmax; try discriminate.
  intros [= <-]. apply Z.leb_le in Hmin, Hmax. auto.
Qed.

(** C5. On a store that the pipeline made, a mention whose [created_utc]
    converts to a [Timestamp] is saved by [save_data] as one more row, and
    [load_data] then returns it as its last row, after the rows that were
    there: with the cells of the mention in every column but
    [created_utc], and in [created_utc] the [Timestamp] of its conversion.
    For a whole number [secs] of seconds, which is what a post has, that
    is the [Timestamp] of [secs * 10^9] nanoseconds after the epoch, the
    instant of the mention: [secs] is the number that its float is. *)
Theorem save_data_load_data_round_trip (w : World) (m : Mention) (ts : value) :
  store_ok (db w) = true →
  to_datetime_s (VFloat (m_created_utc m)) = Ok ts →
  (∃ df r,
      fst (load_data
             (snd (save_data (DataFrame_of_records mention_columns [mention_record m]) w)))
        = Ok df
      ∧ last (rows df) = Some r
      ∧ length (rows df) = S (length (stored (db w)))
      ∧ cell "created_utc" r = ts
      ∧ ∀ c, c ≠ "created_utc" → r !! c = mention_record m !! c)
  ∧ ∀ secs, whole_number (m_created_utc m) = Some secs →
      ts = VTimestamp (secs * 10 ^ 9)
      ∧ Timestamp_min ≤ secs * 10 ^ 9 ≤ Timestamp_max
      ∧ ∃ q, float_value (m_created_utc m) = Some q ∧ (q == inject_Z secs)%Q.
Proof.
  intros Hok Hts. split.
  2:{ intros secs Hsecs.
      destruct (to_datetime_s_whole_inv _ _ _ Hsecs Hts) as [-> Hrange].
      split; [reflexivity|]. split; [exact Hrange|]. by apply whole_number_value. }
  set (df0 := DataFrame_of_records mention_columns [mention_record m]).
  destruct (returns_run _ w _ _ (returns_save_data df0 (db w))) as [_ Hdb].
  set (w' := snd (save_data df0 w)) in *.
  destruct (returns_run _ w' _ _ (returns_load_data (db w'))) as [Hload _].
  assert (Hm : loadable (mention_record m) = true).
  { unfold loadable. by rewrite mention_record_created_utc, Hts. }
  assert (Hsaved : ∃ cols,
             db w' = File (Some (mkTable cols (stored (db w) ++ [mention_record m])))
             ∧ store_ok (db w') = true).
  { rewrite Hdb. unfold saved, df0. cbn [DataFrame_of_records].
    rewrite df_empty_mention_columns. cbn [columns rows fmap list_fmap].
    rewrite sqlite_row_mention_record.
    destruct (db w) as [|[t|]] eqn:Hd.
    - exists mention_columns. split; [reflexivity|].
      cbn [store_ok t_columns t_rows stored app forallb]. by rewrite Hm.
    - rewrite (store_ok_fits t Hok). exists (t_columns t). split; [reflexivity|].
      cbn [store_ok t_columns t_rows stored] in *.
      apply andb_true_iff in Hok as [Hcols Hrows].
      rewrite Hcols, forallb_app, Hrows. cbn [forallb]. by rewrite Hm.
    - exists mention_columns. split; [reflexivity|].
      cbn [store_ok t_columns t_rows stored app forallb]. by rewrite Hm. }
  destruct Hsaved as (cols & Hdb' & Hok').
  exists (loaded (db w')), (<["created_utc" := ts]> (mention_record m)).
  split; [assumption|].
  rewrite Hdb' in Hok' |- *. rewrite (loaded_store_ok _ Hok').
  cbn [rows t_rows]. rewrite fmap_app. cbn [fmap list_fmap].
  assert (Hstamp : stamp (mention_record m) = <["created_utc" := ts]> (mention_record m)).
  { unfold stamp. by rewrite mention_record_created_utc, Hts. }
  rewrite Hstamp. split; [apply last_snoc|].
  split. { rewrite length_app, length_fmap. simpl. lia. }
  split; [apply cell_insert_eq|].
  intros c Hc. by rewrite lookup_insert_ne.
Qed.

(** ** More about the records and the store *)

Lemma post_record_mention (sub_name brand : string) (post : Post) :
  post_record sub_name brand post = mention_record (mention_of_post sub_name brand post).
Proof. reflexivity. Qed.

(** X5. Every fetched record is the record of a mention, and has the
    placeholders for its score and its label. *)
Theorem fetched_records_placeholders (brands subreddits : list string) (limit : nat) :
  Forall (λ r, (∃ m, r = mention_record m)
               ∧ cell "sentiment_score" r = VFloat 0
               ∧ cell "sentiment_label" r = VStr "Neutral")
    (fetched_records brands subreddits limit).
Proof.
  apply Forall_forall. intros r Hr.
  apply fetched_records_post in Hr as (sub_name & brand & post & ->).
  split; [|split; reflexivity].
  exists (mention_of_post sub_name brand post). apply post_record_mention.
Qed.

(** X1. A run on a store that the pipeline made leaves such a store, when
    the timestamps of the fetched posts convert; and the pipeline starts
    from one, as there is no file at first. *)
Theorem run_update_pipeline_store_ok (w : World) :
  store_ok (db w) = true →
  forallb loadable (fetched_records BRANDS SUBREDDITS POST_LIMIT) = true →
  store_ok (db (snd (run_update_pipeline w))) = true ∧ store_ok NoFile = true.
Proof.
  intros Hok Hfetched. split; [|reflexivity].
  destruct (returns_run _ w _ _ (returns_run_update_pipeline (db w) Hok)) as [_ ->].
  by apply store_ok_pipeline_db.
Qed.

(** X2. In every row that a run appends, the label is the label of the
    score, and the score is the score of the text. *)
Theorem run_update_pipeline_labels (w : World) :
  store_ok (db w) = true →
  ∃ appended,
    stored (db (snd (run_update_pipeline w))) = stored (db w) ++ appended
    ∧ Forall (λ r, ∃ text,
                cell "text" r = VStr text
                ∧ cell "sentiment_score" r = VFloat (compound text)
                ∧ cell "sentiment_label" r = VStr (get_sentiment_label (compound text)))
        appended.
Proof.
  intros Hok. exists (score_record <$> new_records (db w)).
  split; [by apply run_update_pipeline_persists_new_db|].
  apply Forall_fmap, Forall_forall. intros r Hr.
  apply list_elem_of_filter in Hr as [_ Hr].
  apply fetched_records_post in Hr as (sub_name & brand & post & ->).
  exists (title post +:+ " " +:+ selftext post). unfold compose.
  split; [by rewrite score_record_cell|].
  unfold score_record. split.
  - rewrite cell_insert_ne by done. by rewrite cell_insert_eq.
  - by rewrite cell_insert_eq.
Qed.

(** X3. [save_data] of an empty frame changes nothing in the store, says
    so, and raises nothing. *)
Theorem save_data_empty (df : DataFrame) (w : World) :
  df_empty df = true →
  save_data df w
  = (Ok (), mkWorld (db w) (stdout w ++ ["Dataframe is empty, nothing to save."])).
Proof. intros Hempty. unfold save_data. by rewrite Hempty. Qed.

(** X4. [save_data] does not compare what it is given with what is stored:
    the same mention saved twice is stored twice. *)
Theorem save_data_twice (w : World) (m : Mention) :
  store_ok (db w) = true →
  stored (db (snd (save_data (DataFrame_of_records mention_columns [mention_record m])
                     (snd (save_data (DataFrame_of_records mention_columns [mention_record m])
                             w)))))
  = stored (db w) ++ [mention_record m; mention_record m].
Proof.
  intros Hok.
  set (df := DataFrame_of_records mention_columns [mention_record m]).
  destruct (returns_run _ w _ _ (returns_save_data df (db w))) as [_ Hdb1].
  destruct (returns_run _ (snd (save_data df w)) _ _
              (returns_save_data df (db (snd (save_data df w))))) as [_ Hdb2].
  rewrite Hdb2, Hdb1. unfold saved, df. cbn [DataFrame_of_records].
  rewrite df_empty_mention_columns. cbn [columns rows fmap list_fmap].
  rewrite sqlite_row_mention_record.
  destruct (db w) as [|[t|]] eqn:Hd.
  - cbn [t_columns]. rewrite filter_none; [reflexivity|].
    apply Forall_forall. by intros c Hc Hnot.
  - rewrite (store_ok_fits t Hok). cbn [t_columns]. rewrite (store_ok_fits t Hok).
    cbn [stored t_rows]. by rewrite <- (assoc_L (++)).
  - cbn [t_columns]. rewrite filter_none; [reflexivity|].
    apply Forall_forall. by intros c Hc Hnot.
Qed.

(** X6. A failure while reading is an empty result: when the [created_utc]
    of some stored row does not convert, [load_data] returns the empty
    frame, as it does for an empty store, and raises nothing. *)
Theorem load_data_read_failure (t : Table) (out : list string) (r : Row) (e : exn) :
  r ∈ t_rows t →
  to_datetime_s (cell "created_utc" r) = Raise e →
  fst (load_data (mkWorld (File (Some t)) out)) = Ok pd_DataFrame.
Proof.
  intros Hr He.
  destruct (returns_run load_data (mkWorld (File (Some t)) out) _ _
              (returns_load_data (File (Some t)))) as [-> _].
  f_equal. unfold loaded.
  destruct (bool_decide ("created_utc" ∈ t_columns t)); [|reflexivity].
  destruct (series_apply loaded_row (t_rows t)) as [rs|e'] eqn:Hrs; [|reflexivity].
  apply series_apply_Ok_Forall in Hrs. rewrite Forall_forall in Hrs.
  destruct (Hrs r Hr) as [r' Hr']. unfold loaded_row in Hr'. rewrite He in Hr'.
  discriminate.
Qed.

(** ** What the store functions do at their edges *)

(** X7. [save_data] of a frame that has a column that the table lacks
    stores nothing: the store stays as it is, one line tells the error,
    and nothing is raised. *)
Theorem save_data_missing_column (df : DataFrame) (w : World) (t : Table) (c : string) :
  df_empty df = false →
  db w = File (Some t) →
  c ∈ columns df →
  c ∉ t_columns t →
  ∃ c0,
    c0 ∈ columns df ∧ (c0 ∉ t_columns t)
    ∧ save_data df w
      = (Ok (),
         mkWorld (db w)
           (stdout w ++ ["An error occurred while saving data: table mentions has no column named "
                         +:+ c0])).
Proof.
  intros Hempty Hdb Hc Hnot. unfold save_data. rewrite Hempty.
  rewrite bind_run, get_db_connection_run, try_except_run, bind_run.
  unfold to_sql. cbn [db stdout]. rewrite Hdb.
  destruct (filter (λ c, c ∉ t_columns t) (columns df)) as [|c0 cs] eqn:Hfilter.
  { exfalso. eapply (filter_nil_not_elem_of _ _ c Hfilter); eassumption. }
  exists c0.
  assert (Hc0 : c0 ∈ filter (λ c, c ∉ t_columns t) (columns df))
    by (rewrite Hfilter; apply list_elem_of_here).
  apply list_elem_of_filter in Hc0 as [Hc0not Hc0in].
  split; [assumption|]. split; [assumption|].
  rewrite print_run. destruct w as [d out]. cbn [db stdout] in *. by subst d.
Qed.

(** X8. [load_data] changes nothing in the store, in whatever state: it
    creates no file. On a store that the pipeline made it returns every
    stored row, in the order stored, under the columns of the table: each
    row with its cells, but for [created_utc], which is converted. *)
Theorem load_data_all_rows (w : World) :
  db (snd (load_data w)) = db w
  ∧ (store_ok (db w) = true →
     ∃ df,
       fst (load_data w) = Ok df
       ∧ (∀ cols, table_columns (db w) = Some cols → columns df = cols)
       ∧ length (rows df) = length (stored (db w))
       ∧ ∀ (i : nat) (r : Row), stored (db w) !! i = Some r →
           ∃ r' ts,
             rows df !! i = Some r'
             ∧ to_datetime_s (cell "created_utc" r) = Ok ts
             ∧ cell "created_utc" r' = ts
             ∧ ∀ c, c ≠ "created_utc" → r' !! c = r !! c).
Proof.
  destruct (returns_run load_data w _ _ (returns_load_data (db w))) as [Hload Hdb].
  split; [assumption|]. intros Hok. exists (loaded (db w)). split; [assumption|].
  destruct (db w) as [|[t|]] eqn:Hd.
  - cbn. split; [discriminate|]. split; [reflexivity|]. intros i r Hr.
    by rewrite lookup_nil in Hr.
  - rewrite (loaded_store_ok t Hok). cbn [columns rows stored table_columns].
    split; [by intros cols [= <-]|]. split; [by rewrite length_fmap|].
    intros i r Hr.
    assert (Hloadable : loadable r = true).
    { unfold store_ok in Hok. apply andb_true_iff in Hok as [_ Hrows].
      rewrite forallb_forall in Hrows. apply Hrows, list_elem_of_In.
      by eapply list_elem_of_lookup_2. }
    unfold loadable in Hloadable.
    destruct (to_datetime_s (cell "created_utc" r)) as [ts|e] eqn:Hts; [|discriminate].
    exists (<["created_utc" := ts]> r), ts.
    split. { rewrite list_lookup_fmap, Hr. cbn. unfold stamp. by rewrite Hts. }
    split; [reflexivity|]. split; [apply cell_insert_eq|].
    intros c Hc. by rewrite lookup_insert_ne.
  - cbn. split; [discriminate|]. split; [reflexivity|]. intros i r Hr.
    by rewrite lookup_nil in Hr.
Qed.

(** X9. When no search yields a post, for instance with no brand or no
    subreddit, [fetch_reddit_mentions] returns the frame with no column
    and no row; otherwise its frame has the columns of a mention and is not
    empty. *)
Theorem fetch_reddit_mentions_empty (brands subreddits : list string) (limit : nat)
    (w : World) :
  (fst (fetch_reddit_mentions brands subreddits limit w) = Ok pd_DataFrame ↔
     ∀ sub_name brand, sub_name ∈ subreddits → brand ∈ brands →
       yielded (search sub_name brand limit) = [])
  ∧ (∀ df, fst (fetch_reddit_mentions brands subreddits limit w) = Ok df →
       df_empty df = false → columns df = mention_columns)
  ∧ fst (fetch_reddit_mentions [] subreddits limit w) = Ok pd_DataFrame
  ∧ fst (fetch_reddit_mentions brands [] limit w) = Ok pd_DataFrame.
Proof.
  assert (Hnone : fetched_records brands subreddits limit = [] ↔
            ∀ sub_name brand, sub_name ∈ subreddits → brand ∈ brands →
              yielded (search sub_name brand limit) = []).
  { split.
    - intros Hnil sub_name brand Hsub Hbrand.
      destruct (yielded (search sub_name brand limit)) as [|post posts] eqn:Hy;
        [reflexivity|].
      exfalso. apply (elem_of_nil (post_record sub_name brand post)).
      rewrite <- Hnil. unfold fetched_records.
      apply list_elem_of_bind. exists sub_name. split; [|assumption].
      apply list_elem_of_bind. exists brand. split; [|assumption].
      rewrite Hy. apply list_elem_of_here.
    - intros Hall. unfold fetched_records.
      destruct (sub_name ← subreddits; brand ← brands;
                post_record sub_name brand <$> yielded (search sub_name brand limit))
        as [|r rs] eqn:Hrs; [reflexivity|].
      exfalso. assert (Hr : r ∈ r :: rs) by apply list_elem_of_here.
      rewrite <- Hrs in Hr.
      apply list_elem_of_bind in Hr as (sub_name & Hr & Hsub).
      apply list_elem_of_bind in Hr as (brand & Hr & Hbrand).
      rewrite (Hall sub_name brand Hsub Hbrand) in Hr. by apply elem_of_nil in Hr. }
  rewrite !fetch_reddit_mentions_run. cbn [fst].
  split; [|split; [|split]].
  - rewrite <- Hnone. unfold DataFrame_of_records, pd_DataFrame.
    destruct (fetched_records brands subreddits limit); split; (reflexivity || discriminate).
  - intros df [= <-]. unfold DataFrame_of_records.
    by destruct (fetched_records brands subreddits limit).
  - clear Hnone. unfold fetched_records.
    induction subreddits as [|sub_name subreddits IH]; [reflexivity|].
    rewrite bind_cons. exact IH.
  - reflexivity.
Qed.

(** ** Scoring twice *)

Lemma text_of_score_record (r : Row) : text_of (score_record r) = text_of r.
Proof. unfold text_of. by rewrite score_record_cell. Qed.

Lemma score_record_idempotent (r : Row) : score_record (score_record r) = score_record r.
Proof.
  unfold score_record at 1. rewrite text_of_score_record. unfold score_record.
  apply map_eq. intros c.
  destruct (decide (c = "sentiment_label")) as [->|Hlabel].
  { by rewrite !lookup_insert_eq. }
  rewrite !(lookup_insert_ne _ "sentiment_label" c) by done.
  destruct (decide (c = "sentiment_score")) as [->|Hscore].
  { by rewrite !lookup_insert_eq. }
  by rewrite !lookup_insert_ne by done.
Qed.

Lemma with_column_elem (c c' : string) (cols : list string) :
  c' ∈ cols → c' ∈ with_column c cols.
Proof.
  intros Hc'. unfold with_column. case_bool_decide; [assumption|].
  apply elem_of_app. by left.
Qed.

Lemma with_column_has (c : string) (cols : list string) : c ∈ with_column c cols.
Proof.
  unfold with_column. case_bool_decide; [assumption|].
  apply elem_of_app. right. by apply list_elem_of_singleton.
Qed.

Lemma with_column_present (c : string) (cols : list string) :
  c ∈ cols → with_column c cols = cols.
Proof. intros Hc. unfold with_column. by rewrite bool_decide_eq_true_2. Qed.

(** X10. Scoring what the scorer returned changes nothing: the same
    columns and the same rows come back. In what the scorer returns, both
    columns are there, each row has the score of its text, and its label
    is the label of that score. *)
Theorem add_sentiment_scores_idempotent (df df' : DataFrame) :
  add_sentiment_scores df = Ok df' →
  add_sentiment_scores df' = Ok df'
  ∧ has_column "sentiment_score" df' = true
  ∧ has_column "sentiment_label" df' = true
  ∧ Forall (λ r, ∃ text,
              cell "text" r = VStr text
              ∧ cell "sentiment_score" r = VFloat (compound text)
              ∧ cell "sentiment_label" r = VStr (get_sentiment_label (compound text)))
      (rows df').
Proof.
  intros Hdf.
  destruct (add_sentiment_scores_Ok_inv df df' Hdf) as [Htext Hstr].
  rewrite (add_sentiment_scores_Ok df Htext Hstr) in Hdf. injection Hdf as <-.
  set (cols' := with_column "sentiment_label" (with_column "sentiment_score" (columns df))).
  assert (Hscore : "sentiment_score" ∈ cols')
    by apply with_column_elem, with_column_has.
  assert (Hlabel : "sentiment_label" ∈ cols') by apply with_column_has.
  split; [|split; [by apply bool_decide_eq_true|split; [by apply bool_decide_eq_true|]]].
  - rewrite add_sentiment_scores_Ok; cbn [columns rows].
    + f_equal. f_equal.
      * rewrite (with_column_present "sentiment_score" cols' Hscore).
        by rewrite (with_column_present "sentiment_label" cols' Hlabel).
      * rewrite <- list_fmap_compose. apply list_fmap_ext. intros i r _.
        apply score_record_idempotent.
    + apply bool_decide_eq_true. apply with_column_elem, with_column_elem.
      by apply bool_decide_eq_true in Htext.
    + apply forallb_forall. intros r' Hr'%list_elem_of_In.
      apply list_elem_of_fmap in Hr' as (r & -> & Hr).
      rewrite forallb_forall in Hstr. apply list_elem_of_In in Hr.
      specialize (Hstr r Hr). unfold text_is_str in *. by rewrite score_record_cell.
  - cbn [rows]. apply Forall_fmap, Forall_forall. intros r Hr. unfold compose.
    rewrite forallb_forall in Hstr. apply list_elem_of_In in Hr. specialize (Hstr r Hr).
    unfold text_is_str in Hstr. exists (text_of r). split.
    + rewrite score_record_cell by done. unfold text_of.
      by destruct (cell "text" r).
    + unfold score_record. split.
      * rewrite cell_insert_ne by done. by rewrite cell_insert_eq.
      * by rewrite cell_insert_eq.
Qed.

(** ** What the pipeline prints last *)

Lemma returns_printing_print (s : string) (d : DB) : returns_printing (print s) d () d [s].
Proof. intros out. by exists out. Qed.

Lemma returns_printing_bind {A B : Type} (m : M A) (f : A → M B) (d d1 d2 : DB) (a : A)
    (b : B) (lines : list string) :
  returns m d a d1 → returns_printing (f a) d1 b d2 lines →
  returns_printing (m ≫= f) d b d2 lines.
Proof.
  intros Hm Hf out. destruct (Hm out) as [out1 Hm1]. destruct (Hf out1) as [out2 Hf2].
  exists out2. by rewrite bind_run, Hm1.
Qed.

Lemma returns_printing_run {A : Type} (m : M A) (w : World) (a : A) (d' : DB)
    (lines : list string) :
  returns_printing m (db w) a d' lines →
  fst (m w) = Ok a ∧ db (snd (m w)) = d' ∧ ∃ out', stdout (snd (m w)) = out' ++ lines.
Proof.
  intros Hm. destruct w as [d out]. destruct (Hm out) as [out' Hrun].
  simpl in *. rewrite Hrun. eauto.
Qed.

Lemma returns_printing_save_data (df : DataFrame) (d : DB) (s : string) :
  returns_printing (save_data df;; print s) d () (saved df d) [save_data_line df d; s].
Proof.
  intros out. rewrite bind_run. unfold save_data, saved, save_data_line.
  destruct (df_empty df).
  { rewrite !print_run. cbn [db stdout]. exists out. by rewrite <- app_assoc. }
  rewrite bind_run, get_db_connection_run, try_except_run, bind_run.
  unfold to_sql. cbn [db stdout].
  destruct d as [|[t|]].
  - rewrite !print_run. cbn [db stdout]. exists out. by rewrite <- app_assoc.
  - destruct (filter _ _).
    + rewrite !print_run. cbn [db stdout]. exists out. by rewrite <- app_assoc.
    + rewrite !print_run. cbn [db stdout str_exn]. exists out. by rewrite <- app_assoc.
  - rewrite !print_run. cbn [db stdout]. exists out. by rewrite <- app_assoc.
Qed.

Lemma store_ok_readable (d : DB) : store_ok d = true → store_readable d = true.
Proof.
  destruct d as [|[t|]]; try done. intros Hok. unfold store_readable.
  rewrite !bool_decide_eq_true_2.
  - unfold store_ok in Hok. by apply andb_true_iff in Hok as [_ ->].
  - apply (store_ok_columns t _ Hok). in_columns.
  - apply (store_ok_columns t _ Hok). in_columns.
Qed.

Lemma loaded_store_readable (t : Table) :
  store_readable (File (Some t)) = true →
  loaded (File (Some t)) = mkDataFrame (t_columns t) (stamp <$> t_rows t).
Proof.
  unfold store_readable. intros [[_ Hc]%andb_true_iff Hrows]%andb_true_iff.
  unfold loaded. rewrite Hc. by rewrite series_apply_loadable.
Qed.

Lemma returns_existing_ids_readable (d : DB) :
  store_readable d = true →
  returns
    (if negb (df_empty (loaded d)) then
       ids ← lift (getitem (loaded d) "id"); mret (py_set ids)
     else mret [])
    d (py_set (cell "id" <$> stored d)) d.
Proof.
  intros Hok. destruct d as [|[t|]]; try apply returns_ret.
  rewrite (loaded_store_readable t Hok). cbn [stored].
  destruct (t_rows t) as [|r rs] eqn:Hrows.
  { unfold df_empty. cbn [rows columns fmap list_fmap].
    destruct (t_columns t); apply returns_ret. }
  assert (Hid : "id" ∈ t_columns t).
  { unfold store_readable in Hok.
    apply andb_true_iff in Hok as [[Hid _]%andb_true_iff _].
    by apply bool_decide_eq_true in Hid. }
  assert (Hne : df_empty (mkDataFrame (t_columns t) (stamp <$> r :: rs)) = false).
  { unfold df_empty. cbn [rows columns]. destruct (t_columns t); [|reflexivity].
    by apply elem_of_nil in Hid. }
  rewrite Hne. cbn [negb].
  eapply returns_bind; [|apply returns_ret].
  apply returns_lift. rewrite getitem_Ok by (by apply bool_decide_eq_true).
  cbn [rows]. rewrite <- list_fmap_compose. f_equal.
  apply list_fmap_ext. intros i r' _. unfold compose. by apply stamp_cell.
Qed.

Lemma returns_printing_run_update_pipeline (d : DB) :
  store_readable d = true →
  returns_printing run_update_pipeline d () (pipeline_db d) (pipeline_last_lines d).
Proof.
  intros Hok. unfold run_update_pipeline.
  eapply returns_printing_bind; [apply returns_print|].
  eapply returns_printing_bind; [apply returns_print|].
  eapply returns_printing_bind; [apply returns_load_data|].
  eapply returns_printing_bind; [by apply returns_existing_ids_readable|].
  eapply returns_printing_bind; [apply returns_print|].
  eapply returns_printing_bind; [apply returns_print|].
  eapply returns_printing_bind; [apply returns_fetch_reddit_mentions|].
  unfold pipeline_db, pipeline_last_lines, analyzed.
  destruct (fetched_records BRANDS SUBREDDITS POST_LIMIT) as [|r0 rs0] eqn:Hf.
  { unfold new_records, saved. rewrite Hf. apply returns_printing_print. }
  cbn [DataFrame_of_records]. rewrite <- Hf.
  replace (df_empty (mkDataFrame mention_columns (fetched_records BRANDS SUBREDDITS POST_LIMIT)))
    with false by (by rewrite Hf).
  eapply returns_printing_bind; [apply returns_print|].
  eapply returns_printing_bind; [apply returns_lift; by apply getitem_Ok|].
  cbn [rows]. cbv zeta. rewrite new_records_select.
  rewrite !df_empty_mention_columns.
  destruct (new_records d) as [|r1 rs1] eqn:Hnew.
  { unfold saved. apply returns_printing_print. }
  cbn [fmap list_fmap]. rewrite <- Hnew.
  eapply returns_printing_bind; [apply returns_print|].
  eapply returns_printing_bind; [apply returns_print|].
  eapply returns_printing_bind.
  { apply returns_lift. unfold copy. apply add_sentiment_scores_Ok; [reflexivity|].
    apply new_records_text. }
  eapply returns_printing_bind; [apply returns_print|].
  eapply returns_printing_bind; [apply returns_print|].
  cbn [columns rows].
  change (with_column "sentiment_label" (with_column "sentiment_score" mention_columns))
    with mention_columns.
  pose proof (returns_printing_save_data
                (mkDataFrame mention_columns (score_record <$> new_records d)) d
                (LF +:+ "--- Pipeline finished successfully! ---")) as Hsave.
  rewrite Hnew in Hsave |- *. exact Hsave.
Qed.

(** X11. On a store that the pipeline made, a run raises nothing and ends
    in one of three ways, which its last line tells. When no search yields a
    post, the store is as it was and the last line says that nothing was
    fetched. When posts were fetched and the store has the id of each, the
    store is as it was and the last line says that no post is new.
    Otherwise the run ends with the line that counts the new posts saved and
    the line of success. *)
Theorem run_update_pipeline_last_lines (w : World) :
  store_ok (db w) = true →
  fst (run_update_pipeline w) = Ok ()
  ∧ (fetched_records BRANDS SUBREDDITS POST_LIMIT = [] →
       db (snd (run_update_pipeline w)) = db w
       ∧ last (stdout (snd (run_update_pipeline w)))
         = Some "No new data fetched from Reddit. Exiting.")
  ∧ (fetched_records BRANDS SUBREDDITS POST_LIMIT ≠ [] → new_records (db w) = [] →
       db (snd (run_update_pipeline w)) = db w
       ∧ last (stdout (snd (run_update_pipeline w)))
         = Some "No new posts found since last update. Pipeline finished.")
  ∧ (new_records (db w) ≠ [] →
       ∃ out',
         stdout (snd (run_update_pipeline w))
         = out' ++ ["Successfully saved " +:+ pretty (length (new_records (db w)))
                    +:+ " new records to the 'mentions' table.";
                    LF +:+ "--- Pipeline finished successfully! ---"]).
Proof.
  intros Hok.
  destruct (returns_printing_run run_update_pipeline w _ _ _
              (returns_printing_run_update_pipeline (db w) (store_ok_readable _ Hok)))
    as (Hrun & Hdb & out' & Hout).
  split; [assumption|]. rewrite Hdb, Hout. unfold pipeline_db, pipeline_last_lines, analyzed.
  split; [|split].
  - intros Hf. unfold new_records, saved. rewrite Hf. split; [reflexivity|apply last_snoc].
  - intros Hf Hnew. rewrite Hnew.
    destruct (fetched_records BRANDS SUBREDDITS POST_LIMIT); [done|].
    split; [reflexivity|apply last_snoc].
  - intros Hnew.
    destruct (fetched_records BRANDS SUBREDDITS POST_LIMIT) as [|r0 rs0] eqn:Hf.
    { exfalso. apply Hnew. unfold new_records. by rewrite Hf. }
    destruct (new_records (db w)) as [|r1 rs1] eqn:Hnew1; [done|].
    exists out'. f_equal. f_equal.
    unfold save_data_line, saved_line, len. rewrite df_empty_mention_columns.
    cbn [rows columns]. rewrite length_fmap.
    destruct (db w) as [|[t|]]; try reflexivity.
    by rewrite (store_ok_fits t Hok).
Qed.

(** X12. When the table holds rows that load and has no [id] column, the
    pipeline raises [KeyError] for [id], and the store is as it was. *)
Theorem run_update_pipeline_missing_id (w : World) (t : Table) :
  db w = File (Some t) →
  "id" ∉ t_columns t →
  "created_utc" ∈ t_columns t →
  t_rows t ≠ [] →
  forallb loadable (t_rows t) = true →
  fst (run_update_pipeline w) = Raise (KeyError "id")
  ∧ db (snd (run_update_pipeline w)) = db w.
Proof.
  intros Hdb Hid Hcreated Hrows Hload. destruct w as [d out]. cbn [db] in *. subst d.
  unfold run_update_pipeline. rewrite bind_run, print_run, bind_run, print_run, bind_run.
  cbn [db stdout].
  destruct (returns_load_data (File (Some t))
              ((out ++ ["--- Starting Data Update Pipeline ---"])
                 ++ ["[Step 1/5] Loading existing data from database..."]))
    as [out' ->].
  unfold loaded. rewrite bool_decide_eq_true_2 by assumption.
  rewrite series_apply_loadable by assumption.
  rewrite bind_run.
  replace (df_empty (mkDataFrame (t_columns t) (stamp <$> t_rows t))) with false.
  2:{ unfold df_empty. cbn [columns rows].
      destruct (t_columns t); [by apply elem_of_nil in Hcreated|].
      by destruct (t_rows t). }
  cbn [negb]. rewrite bind_run, lift_run. unfold getitem, has_column. cbn [columns].
  by rewrite bool_decide_eq_false_2.
Qed.

(** X13. When the table has the columns [id] and [created_utc], its rows
    load, and it lacks a column of the scored mentions, a run that finds new
    posts saves none of them: the store is as it was, nothing is raised, and
    the run ends with the line of the error and then the line of success. *)
Theorem run_update_pipeline_save_failure (w : World) (t : Table) (c : string) :
  db w = File (Some t) →
  store_readable (db w) = true →
  c ∈ mention_columns →
  c ∉ t_columns t →
  new_records (db w) ≠ [] →
  fst (run_update_pipeline w) = Ok ()
  ∧ db (snd (run_update_pipeline w)) = db w
  ∧ ∃ out' c0,
      c0 ∈ mention_columns ∧ (c0 ∉ t_columns t)
      ∧ stdout (snd (run_update_pipeline w))
        = out' ++ ["An error occurred while saving data: table mentions has no column named "
                   +:+ c0;
                   LF +:+ "--- Pipeline finished successfully! ---"].
Proof.
  intros Hdb Hok Hc Hnot Hnew.
  destruct (returns_printing_run run_update_pipeline w _ _ _
              (returns_printing_run_update_pipeline (db w) Hok))
    as (Hrun & Hdb' & out' & Hout).
  split; [assumption|]. rewrite Hdb', Hout.
  unfold pipeline_db, pipeline_last_lines, analyzed, saved, save_data_line.
  destruct (fetched_records BRANDS SUBREDDITS POST_LIMIT) as [|r0 rs0] eqn:Hf.
  { exfalso. apply Hnew. unfold new_records. by rewrite Hf. }
  rewrite df_empty_mention_columns.
  destruct (new_records (db w)) as [|r1 rs1] eqn:Hnew1; [done|].
  cbn [fmap list_fmap columns]. rewrite Hdb.
  destruct (filter (λ c, c ∉ t_columns t) mention_columns) as [|c0 cs] eqn:Hfilter.
  { exfalso. eapply (filter_nil_not_elem_of _ _ c Hfilter); eassumption. }
  split; [reflexivity|]. exists out', c0.
  assert (Hc0 : c0 ∈ filter (λ c, c ∉ t_columns t) mention_columns)
    by (rewrite Hfilter; apply list_elem_of_here).
  apply list_elem_of_filter in Hc0 as [Hc0not Hc0in].
  split; [assumption|]. split; [assumption|]. reflexivity.
Qed.

(** ** More about the rows fetched *)

(** X14. [fetch_reddit_mentions] makes up no row: every row of its frame
    is the record of a post that the search of one of the subreddits for
    one of the brands yielded, with that subreddit and that brand; and the
    frame has as many rows as the searches yielded posts. *)
Theorem fetch_reddit_mentions_rows (brands subreddits : list string) (limit : nat)
    (w : World) :
  ∃ df,
    fst (fetch_reddit_mentions brands subreddits limit w) = Ok df
    ∧ (∀ r, r ∈ rows df →
         ∃ sub_name brand post,
           sub_name ∈ subreddits ∧ brand ∈ brands
           ∧ post ∈ yielded (search sub_name brand limit)
           ∧ r = post_record sub_name brand post
           ∧ cell "id" r = VStr (post_id post)
           ∧ cell "brand" r = VStr brand
           ∧ cell "subreddit" r = VStr sub_name)
    ∧ len df
      = sum_list (sub_name ← subreddits; brand ← brands;
                  [length (yielded (search sub_name brand limit))]).
Proof.
  rewrite fetch_reddit_mentions_run. cbn [fst]. eexists. split; [reflexivity|].
  assert (Hrows : rows (DataFrame_of_records mention_columns
                          (fetched_records brands subreddits limit))
                  = fetched_records brands subreddits limit).
  { unfold DataFrame_of_records. by destruct (fetched_records brands subreddits limit). }
  unfold len. rewrite Hrows. split.
  - intros r Hr. unfold fetched_records in Hr.
    apply list_elem_of_bind in Hr as (sub_name & Hr & Hsub).
    apply list_elem_of_bind in Hr as (brand & Hr & Hbrand).
    apply list_elem_of_fmap in Hr as (post & -> & Hpost).
    exists sub_name, brand, post. repeat split; (assumption || reflexivity).
  - clear Hrows. unfold fetched_records.
    induction subreddits as [|sub_name subreddits IH]; [reflexivity|].
    rewrite !bind_cons, length_app, sum_list_with_app, IH. f_equal.
    clear IH. induction brands as [|brand brands IH]; [reflexivity|].
    rewrite !bind_cons, length_app, length_fmap, IH. reflexivity.
Qed.

(** ** A run after a run, and a run after a load that failed *)

(** X15. On a store that the pipeline made, with posts whose timestamps
    convert, the run after a run tells in its last line that it saved
    nothing: that no post is new, or, when the searches yield no post, that
    nothing was fetched. *)
Theorem run_update_pipeline_second_run (w : World) :
  store_ok (db w) = true →
  forallb loadable (fetched_records BRANDS SUBREDDITS POST_LIMIT) = true →
  last (stdout (snd (run_update_pipeline (snd (run_update_pipeline w)))))
  = Some (match fetched_records BRANDS SUBREDDITS POST_LIMIT with
          | [] => "No new data fetched from Reddit. Exiting."
          | _ :: _ => "No new posts found since last update. Pipeline finished."
          end).
Proof.
  intros Hok Hfetched.
  destruct (returns_run _ w _ _ (returns_run_update_pipeline (db w) Hok)) as [_ Hdb1].
  pose proof (store_ok_pipeline_db (db w) Hok Hfetched) as Hok1.
  rewrite <- Hdb1 in Hok1.
  destruct (returns_printing_run run_update_pipeline _ _ _ _
              (returns_printing_run_update_pipeline _ (store_ok_readable _ Hok1)))
    as (_ & _ & out' & ->).
  unfold pipeline_last_lines. rewrite Hdb1, (new_records_pipeline_db (db w) Hok).
  destruct (fetched_records BRANDS SUBREDDITS POST_LIMIT); apply last_snoc.
Qed.

Lemma series_apply_not_loadable (rs : list Row) :
  forallb loadable rs = false → ∃ e, series_apply loaded_row rs = Raise e.
Proof.
  induction rs as [|r rs IH]; [discriminate|]. cbn [forallb series_apply].
  unfold loadable at 1, loaded_row at 1.
  destruct (to_datetime_s (cell "created_utc" r)) as [ts|e]; [|by exists e].
  cbn [andb]. intros Hrs. destruct (IH Hrs) as [e ->]. by exists e.
Qed.

Lemma select_all (rs : list Row) :
  select (mkDataFrame mention_columns rs) (negb <$> (isin [] <$> (cell "id" <$> rs)))
  = mkDataFrame mention_columns rs.
Proof.
  rewrite <- !list_fmap_compose.
  pose proof (select_rows (mkDataFrame mention_columns rs) (negb ∘ isin [] ∘ cell "id"))
    as Hsel.
  cbn [rows] in Hsel. unfold select in *. cbn [rows columns] in *. f_equal.
  rewrite Hsel. clear Hsel. induction rs as [|r rs IH]; [reflexivity|].
  rewrite filter_cons_True by done. by rewrite IH.
Qed.

Lemma returns_run_update_pipeline_load_failed (d : DB) :
  loaded d = pd_DataFrame →
  returns run_update_pipeline d ()
    (saved (mkDataFrame mention_columns
              (score_record <$> fetched_records BRANDS SUBREDDITS POST_LIMIT)) d).
Proof.
  intros Hloaded. unfold run_update_pipeline.
  eapply returns_bind; [apply returns_print|].
  eapply returns_bind; [apply returns_print|].
  eapply returns_bind; [apply returns_load_data|].
  rewrite Hloaded. change (negb (df_empty pd_DataFrame)) with false. cbv iota.
  eapply returns_bind; [apply returns_ret|].
  eapply returns_bind; [apply returns_print|].
  eapply returns_bind; [apply returns_print|].
  eapply returns_bind; [apply returns_fetch_reddit_mentions|].
  unfold saved.
  destruct (fetched_records BRANDS SUBREDDITS POST_LIMIT) as [|r0 rs0] eqn:Hf.
  { apply returns_print. }
  cbn [DataFrame_of_records]. rewrite <- Hf.
  replace (df_empty (mkDataFrame mention_columns (fetched_records BRANDS SUBREDDITS POST_LIMIT)))
    with false by (by rewrite Hf).
  eapply returns_bind; [apply returns_print|].
  eapply returns_bind; [apply returns_lift; by apply getitem_Ok|].
  cbn [rows]. cbv zeta. rewrite select_all.
  rewrite !df_empty_mention_columns. rewrite Hf at 1. rewrite Hf at 1.
  cbn [fmap list_fmap]. cbv iota.
  eapply returns_bind; [apply returns_print|].
  eapply returns_bind; [apply returns_print|].
  eapply returns_bind.
  { apply returns_lift. unfold copy. apply add_sentiment_scores_Ok; [reflexivity|].
    apply forallb_forall. intros r Hr%list_elem_of_In.
    apply fetched_records_post in Hr as (sub_name & brand & post & ->).
    apply post_record_text. }
  eapply returns_bind; [apply returns_print|].
  eapply returns_bind; [apply returns_print|].
  eapply returns_bind; [|apply returns_print].
  cbn [columns rows].
  change (with_column "sentiment_label" (with_column "sentiment_score" mention_columns))
    with mention_columns.
  pose proof (returns_save_data
                (mkDataFrame mention_columns
                   (score_record <$> fetched_records BRANDS SUBREDDITS POST_LIMIT)) d)
    as Hsave.
  unfold saved in Hsave. rewrite df_empty_mention_columns in Hsave.
  rewrite Hf in Hsave |- *. exact Hsave.
Qed.

(** X16. When a stored row does not load, [load_data] gives the pipeline
    no row, and the pipeline takes every fetched post for a new one: in a
    table that has the columns of a mention, a run appends the scored record
    of every fetched post, those whose id is stored among them. *)
Theorem run_update_pipeline_load_failed (w : World) (t : Table) :
  db w = File (Some t) →
  forallb (λ c, bool_decide (c ∈ t_columns t)) mention_columns = true →
  forallb loadable (t_rows t) = false →
  fst (run_update_pipeline w) = Ok ()
  ∧ db (snd (run_update_pipeline w))
    = (match fetched_records BRANDS SUBREDDITS POST_LIMIT with
       | [] => db w
       | _ :: _ =>
           File (Some (mkTable (t_columns t)
                         (t_rows t
                          ++ (score_record <$> fetched_records BRANDS SUBREDDITS POST_LIMIT))))
       end).
Proof.
  intros Hdb Hcols Hrows.
  assert (Hloaded : loaded (db w) = pd_DataFrame).
  { rewrite Hdb. unfold loaded. case_bool_decide; [|reflexivity].
    by destruct (series_apply_not_loadable _ Hrows) as [e ->]. }
  destruct (returns_run _ w _ _ (returns_run_update_pipeline_load_failed (db w) Hloaded))
    as [Hrun ->].
  split; [assumption|]. unfold saved. rewrite df_empty_mention_columns.
  destruct (fetched_records BRANDS SUBREDDITS POST_LIMIT) as [|r0 rs0] eqn:Hf; [reflexivity|].
  cbn [fmap list_fmap columns rows]. rewrite Hdb.
  assert (Hfits : filter (λ c, c ∉ t_columns t) mention_columns = []).
  { apply filter_none. apply Forall_forall. intros c Hc Hnot. apply Hnot.
    rewrite forallb_forall in Hcols. apply list_elem_of_In in Hc.
    apply (bool_decide_unpack _). by apply Is_true_true, Hcols. }
  rewrite Hfits.
  assert (Hsql : sqlite_row <$> (score_record <$> r0 :: rs0) = score_record <$> r0 :: rs0).
  { rewrite <- Hf, <- list_fmap_compose. apply list_fmap_ext. intros i r Hr. unfold compose.
    apply list_elem_of_lookup_2 in Hr.
    apply fetched_records_post in Hr as (sub_name & brand & post & ->).
    apply sqlite_row_score_record. }
  cbn [fmap list_fmap] in Hsql. by rewrite Hsql.
Qed.

(** ** The label of the opposite score *)

Lemma compare_cont_antisym (p q : positive) :
  PosDef.Pos.compare_cont Eq q p = CompOpp (PosDef.Pos.compare_cont Eq p q).
Proof. exact (Pos.compare_antisym p q). Qed.

Lemma leb_opp_r (a s : float) : (a <=? - s)%float = (s <=? - a)%float.
Proof.
  rewrite !leb_spec, !opp_spec. unfold SFleb.
  destruct (Prim2SF a) as [sa|sa| |sa ma ea], (Prim2SF s) as [ss|ss| |ss ms es];
    try destruct sa; try destruct ss; cbn; try reflexivity.
  all: rewrite (Z.compare_antisym ea es), (compare_cont_antisym ma ms);
    destruct (ea ?= es); cbn; try reflexivity;
    by destruct (PosDef.Pos.compare_cont Eq ma ms).
Qed.

Lemma leb_opp_l (a s : float) : (- s <=? a)%float = (- a <=? s)%float.
Proof.
  rewrite !leb_spec, !opp_spec. unfold SFleb.
  destruct (Prim2SF a) as [sa|sa| |sa ma ea], (Prim2SF s) as [ss|ss| |ss ms es];
    try destruct sa; try destruct ss; cbn; try reflexivity.
  all: rewrite (Z.compare_antisym ea es), (compare_cont_antisym ma ms);
    destruct (ea ?= es); cbn; try reflexivity;
    by destruct (PosDef.Pos.compare_cont Eq ma ms).
Qed.

(** X17. The thresholds of [get_sentiment_label] mirror each other: the
    label of the opposite of a score is the opposite of its label, Negative
    for Positive, Positive for Negative, and Neutral for Neutral; for every
    float, the infinities and NaN among them. *)
Theorem get_sentiment_label_opp (s : float) :
  get_sentiment_label (- s) = opposite_label (get_sentiment_label s).
Proof.
  pose proof (leb_opposite_signs s) as Hsigns.
  unfold get_sentiment_label.
  rewrite (leb_opp_r 0.05 s), (leb_opp_l (-0.05) s).
  replace (PrimFloat.opp 0.05) with (-0.05)%float by reflexivity.
  replace (PrimFloat.opp (-0.05)) with 0.05%float by reflexivity.
  destruct (s <=? -0.05)%float eqn:Hneg, (0.05 <=? s)%float eqn:Hpos; try reflexivity.
  exfalso. by apply Hsigns.
Qed.

End Properties.

(** * The properties in the worlds above *)

(** C2 at work: the search yields [A], [B] and [C], the store has [A]; the
    run appends [B] and [C], and the store then has [A], [B] and [C]. *)
Lemma run_update_pipeline_persists_new_witness :
  store_ok (H:=demo) (db world_A) = true
  ∧ cell "id" <$> new_records (H:=demo) (db world_A) = [VStr "B"; VStr "C"]
  ∧ cell "id" <$> stored (db (snd (run_update_pipeline (H:=demo) world_A)))
    = [VStr "A"; VStr "B"; VStr "C"].
Proof.
  assert (Hok : store_ok (H:=demo) (db world_A) = true) by (vm_compute; reflexivity).
  split; [exact Hok|]. split; [vm_compute; reflexivity|].
  destruct (run_update_pipeline_persists_new (H:=demo) world_A Hok) as (_ & Hstored & _).
  rewrite Hstored. vm_compute. reflexivity.
Defined.

(** C3 at work: after a first run on no file, a second run changes
    nothing; the table keeps its three rows. *)
Lemma run_update_pipeline_idempotent_witness :
  store_ok (H:=demo) (db world_new) = true
  ∧ forallb (loadable (H:=demo)) (fetched_records (H:=demo) BRANDS SUBREDDITS POST_LIMIT) = true
  ∧ db (snd (run_update_pipeline (H:=demo) (snd (run_update_pipeline (H:=demo) world_new))))
    = db (snd (run_update_pipeline (H:=demo) world_new))
  ∧ length (stored (db (snd (run_update_pipeline (H:=demo) world_new)))) = 3%nat.
Proof.
  assert (Hok : store_ok (H:=demo) (db world_new) = true) by reflexivity.
  assert (Hfetched : forallb (loadable (H:=demo))
                       (fetched_records (H:=demo) BRANDS SUBREDDITS POST_LIMIT) = true)
    by (vm_compute; reflexivity).
  split; [exact Hok|]. split; [exact Hfetched|].
  split; [|vm_compute; reflexivity].
  exact (proj2 (run_update_pipeline_idempotent (H:=demo) world_new Hok Hfetched)).
Defined.

(** C4 at work: the table of [world_A] keeps its columns. *)
Lemma run_update_pipeline_append_only_witness :
  table_columns (db world_A) = Some mention_columns
  ∧ table_columns (db (snd (run_update_pipeline (H:=demo) world_A))) = Some mention_columns.
Proof.
  split; [reflexivity|].
  exact (proj2 (proj1 (run_update_pipeline_append_only (H:=demo) world_A))
           mention_columns eq_refl).
Defined.

(** C5 at work: a mention created 1700000000 seconds after the epoch comes
    back with the [Timestamp] of 1700000000 * 10^9 nanoseconds. *)
Lemma save_data_load_data_round_trip_witness :
  store_ok (H:=demo) (db world_A) = true
  ∧ to_datetime_s (H:=demo) (VFloat (m_created_utc demo_mention))
    = Ok (VTimestamp 1700000000000000000)
  ∧ whole_number (m_created_utc demo_mention) = Some 1700000000
  ∧ ∃ df r,
      fst (load_data (H:=demo)
             (snd (save_data (H:=demo)
                     (DataFrame_of_records mention_columns [mention_record demo_mention])
                     world_A)))
        = Ok df
      ∧ last (rows df) = Some r
      ∧ length (rows df) = S (length (stored (db world_A)))
      ∧ cell "created_utc" r = VTimestamp 1700000000000000000
      ∧ ∀ c, c ≠ "created_utc" → r !! c = mention_record demo_mention !! c.
Proof.
  assert (Hok : store_ok (H:=demo) (db world_A) = true) by (vm_compute; reflexivity).
  assert (Hts : to_datetime_s (H:=demo) (VFloat (m_created_utc demo_mention))
                = Ok (VTimestamp 1700000000000000000)) by (vm_compute; reflexivity).
  split; [exact Hok|]. split; [exact Hts|]. split; [vm_compute; reflexivity|].
  exact (proj1 (save_data_load_data_round_trip (H:=demo) world_A demo_mention _ Hok Hts)).
Defined.

(** C6 as it is stated fails: the only search raises, after it yielded
    [A], and the frame has the row of [A]. *)
Lemma fetch_reddit_mentions_failed_search_rows :
  raised (search (Externals:=demo_failing) "hardware" "NVIDIA" 200)
    = Some "received 503 HTTP response"
  ∧ ∃ df w',
      fetch_reddit_mentions (H:=demo_failing) ["NVIDIA"] ["hardware"] 200 world_new
        = (Ok df, w')
      ∧ rows df = [post_record "hardware" "NVIDIA" post_A]
      ∧ len df = 1%nat.
Proof.
  split; [reflexivity|].
  eexists _, _. split; [vm_compute; reflexivity|].
  split; vm_compute; reflexivity.
Qed.

(** C6 at work: the search in r/hardware fails, its line is printed, and
    the record of [B], which the later search in r/gaming yields, is in the
    frame. *)
Lemma fetch_reddit_mentions_failures_witness :
  "Could not fetch from r/hardware. Error: received 503 HTTP response"
    ∈ fetch_errors (H:=demo_failing) BRANDS SUBREDDITS POST_LIMIT
  ∧ post_record "gaming" "NVIDIA" post_B
      ∈ fetched_records (H:=demo_failing) BRANDS SUBREDDITS POST_LIMIT.
Proof.
  pose proof (fetch_reddit_mentions_failures (H:=demo_failing) BRANDS SUBREDDITS POST_LIMIT
                world_new) as (_ & Herrors & Hrecords).
  split.
  - apply (Herrors "hardware" "NVIDIA" "received 503 HTTP response");
      [in_columns|in_columns|reflexivity].
  - apply (Hrecords "gaming" "NVIDIA" post_B); [in_columns|in_columns|].
    apply list_elem_of_here.
Defined.

(** C8 as it is stated fails: the frame has a [text] column, and the
    scorer raises. *)
Lemma add_sentiment_scores_raises_with_text_column :
  has_column "text" frame_text_none = true
  ∧ add_sentiment_scores (H:=demo) frame_text_none
    = Raise (TypeError "object is not iterable").
Proof. split; vm_compute; reflexivity. Qed.

(** C8 at work: a frame of one fetched record is scored. *)
Lemma add_sentiment_scores_text_column_witness :
  add_sentiment_scores (H:=demo)
    (mkDataFrame mention_columns [post_record "hardware" "NVIDIA" post_A])
  = Ok (mkDataFrame mention_columns
          [score_record (H:=demo) (post_record "hardware" "NVIDIA" post_A)]).
Proof.
  exact (proj2 (proj2 (add_sentiment_scores_text_column (H:=demo)
                         (mkDataFrame mention_columns
                            [post_record "hardware" "NVIDIA" post_A])))
           eq_refl eq_refl).
Defined.

(** C9 at work: the scorer returns for a frame of one fetched record. *)
Lemma add_sentiment_scores_frame_witness :
  ∃ df',
    (add_sentiment_scores (H:=demo)
       (mkDataFrame mention_columns [post_record "gaming" "NVIDIA" post_B]))
    = Ok df'.
Proof.
  exact (proj1 (add_sentiment_scores_frame (H:=demo)
                  (mkDataFrame mention_columns [post_record "gaming" "NVIDIA" post_B]))
           eq_refl eq_refl).
Defined.

(** C10 at work: the two searches in r/hardware yield the same post, no
    row is stored, and the run appends two rows with its id. *)
Lemma run_update_pipeline_keeps_batch_duplicates_witness :
  store_ok (H:=demo_two_brands) (db world_new) = true
  ∧ (VStr "A" ∉ (cell "id" <$> stored (db world_new)))
  ∧ length (filter (λ r, has_id "A" r = true)
              (stored (db (snd (run_update_pipeline (H:=demo_two_brands) world_new)))))
    = 2%nat.
Proof.
  assert (Hok : store_ok (H:=demo_two_brands) (db world_new) = true) by reflexivity.
  assert (Hfresh : VStr "A" ∉ (cell "id" <$> stored (db world_new)))
    by apply not_elem_of_nil.
  split; [exact Hok|]. split; [exact Hfresh|].
  destruct (run_update_pipeline_keeps_batch_duplicates (H:=demo_two_brands) world_new "A"
              Hok Hfresh) as (appended & Hstored & _ & Hlength).
  rewrite Hstored. cbn [world_new db stored app]. rewrite Hlength.
  vm_compute. reflexivity.
Defined.

(** The store that the first run leaves from no file is one that the
    pipeline made. *)
Lemma run_update_pipeline_store_ok_witness :
  store_ok (H:=demo) (db world_new) = true
  ∧ forallb (loadable (H:=demo)) (fetched_records (H:=demo) BRANDS SUBREDDITS POST_LIMIT) = true
  ∧ store_ok (H:=demo) (db (snd (run_update_pipeline (H:=demo) world_new))) = true.
Proof.
  assert (Hok : store_ok (H:=demo) (db world_new) = true) by reflexivity.
  assert (Hfetched : forallb (loadable (H:=demo))
                       (fetched_records (H:=demo) BRANDS SUBREDDITS POST_LIMIT) = true)
    by (vm_compute; reflexivity).
  split; [exact Hok|]. split; [exact Hfetched|].
  exact (proj1 (run_update_pipeline_store_ok (H:=demo) world_new Hok Hfetched)).
Defined.

(** The rows appended to the store of [A] are labelled by their scores. *)
Lemma run_update_pipeline_labels_witness :
  store_ok (H:=demo) (db world_A) = true
  ∧ ∃ appended,
      stored (db (snd (run_update_pipeline (H:=demo) world_A)))
      = stored (db world_A) ++ appended
      ∧ Forall (λ r, ∃ text,
                  cell "text" r = VStr text
                  ∧ cell "sentiment_score" r = VFloat (demo_compound text)
                  ∧ cell "sentiment_label" r
                    = VStr (get_sentiment_label (demo_compound text)))
          appended.
Proof.
  assert (Hok : store_ok (H:=demo) (db world_A) = true) by (vm_compute; reflexivity).
  split; [exact Hok|].
  exact (run_update_pipeline_labels (H:=demo) world_A Hok).
Defined.

(** Saving the frame with no column and no row. *)
Lemma save_data_empty_witness :
  df_empty pd_DataFrame = true
  ∧ save_data (H:=demo) pd_DataFrame world_A
    = (Ok (), mkWorld (db world_A) ["Dataframe is empty, nothing to save."]).
Proof.
  split; [reflexivity|].
  exact (save_data_empty (H:=demo) pd_DataFrame world_A eq_refl).
Defined.

(** Saving the same mention twice in the store of [A]: three rows. *)
Lemma save_data_twice_witness :
  store_ok (H:=demo) (db world_A) = true
  ∧ length
      (stored
         (db (snd (save_data (H:=demo)
                     (DataFrame_of_records mention_columns [mention_record demo_mention])
                     (snd (save_data (H:=demo)
                             (DataFrame_of_records mention_columns
                                [mention_record demo_mention])
                             world_A))))))
    = 3%nat.
Proof.
  assert (Hok : store_ok (H:=demo) (db world_A) = true) by (vm_compute; reflexivity).
  split; [exact Hok|].
  rewrite (save_data_twice (H:=demo) world_A demo_mention Hok). reflexivity.
Defined.

(** A row created 10^10 seconds after the epoch, in the year 2286, is
    beyond what a [Timestamp] counts: nothing is loaded. *)
Lemma load_data_read_failure_witness :
  fst (load_data (H:=demo)
         (mkWorld
            (File (Some (mkTable mention_columns
                           [mention_record demo_mention;
                            <["created_utc" := VFloat 10000000000]>
                              (mention_record demo_mention)])))
            []))
  = Ok pd_DataFrame.
Proof.
  apply (load_data_read_failure (H:=demo) _ _
           (<["created_utc" := VFloat 10000000000]> (mention_record demo_mention))
           (OutOfBoundsDatetime "cannot convert input with unit 's'")).
  - cbn [t_rows]. apply elem_of_cons. right. apply list_elem_of_here.
  - vm_compute. reflexivity.
Defined.

(** Saving the scored post [B] in the table that has no column for the
    score. *)
Lemma save_data_missing_column_witness :
  ∃ c0,
    c0 ∈ columns frame_B
    ∧ (c0 ∉ t_columns table_unscored)
    ∧ save_data (H:=demo) frame_B world_unscored
      = (Ok (),
         mkWorld (db world_unscored)
           (stdout world_unscored
              ++ ["An error occurred while saving data: table mentions has no column named "
                  +:+ c0])).
Proof.
  apply (save_data_missing_column (H:=demo) frame_B world_unscored table_unscored
           "sentiment_score");
    [reflexivity|reflexivity|in_columns|in_columns].
Defined.

(** Loading the store of [A]. *)
Lemma load_data_all_rows_witness :
  store_ok (H:=demo) (db world_A) = true
  ∧ ∃ df,
      fst (load_data (H:=demo) world_A) = Ok df
      ∧ (∀ cols, table_columns (db world_A) = Some cols → columns df = cols)
      ∧ length (rows df) = length (stored (db world_A))
      ∧ ∀ (i : nat) (r : Row), stored (db world_A) !! i = Some r →
          ∃ r' ts,
            rows df !! i = Some r'
            ∧ to_datetime_s (H:=demo) (cell "created_utc" r) = Ok ts
            ∧ cell "created_utc" r' = ts
            ∧ ∀ c, c ≠ "created_utc" → r' !! c = r !! c.
Proof.
  assert (Hok : store_ok (H:=demo) (db world_A) = true) by (vm_compute; reflexivity).
  split; [exact Hok|].
  exact (proj2 (load_data_all_rows (H:=demo) world_A) Hok).
Defined.

(** Scoring the frame of [B], which is scored. *)
Lemma add_sentiment_scores_idempotent_witness :
  add_sentiment_scores (H:=demo) frame_B = Ok frame_B
  ∧ has_column "sentiment_score" frame_B = true
  ∧ has_column "sentiment_label" frame_B = true.
Proof.
  assert (Hdf : add_sentiment_scores (H:=demo) frame_B = Ok frame_B)
    by (vm_compute; reflexivity).
  destruct (add_sentiment_scores_idempotent (H:=demo) frame_B frame_B Hdf)
    as (Hagain & Hscore & Hlabel & _).
  split; [exact Hagain|]. split; [exact Hscore|exact Hlabel].
Defined.

(** A run from the store of [A] saves [B] and [C]. *)
Lemma run_update_pipeline_last_lines_witness :
  store_ok (H:=demo) (db world_A) = true
  ∧ new_records (H:=demo) (db world_A) ≠ []
  ∧ ∃ out',
      stdout (snd (run_update_pipeline (H:=demo) world_A))
      = out' ++ ["Successfully saved "
                 +:+ pretty (length (new_records (H:=demo) (db world_A)))
                 +:+ " new records to the 'mentions' table.";
                 LF +:+ "--- Pipeline finished successfully! ---"].
Proof.
  assert (Hok : store_ok (H:=demo) (db world_A) = true) by (vm_compute; reflexivity).
  assert (Hnew : new_records (H:=demo) (db world_A) ≠ []) by (vm_compute; discriminate).
  split; [exact Hok|]. split; [exact Hnew|].
  exact (proj2 (proj2 (proj2 (run_update_pipeline_last_lines (H:=demo) world_A Hok))) Hnew).
Defined.

(** A run on the table that has no [id] column. *)
Lemma run_update_pipeline_missing_id_witness :
  fst (run_update_pipeline (H:=demo) world_no_id) = Raise (KeyError "id")
  ∧ db (snd (run_update_pipeline (H:=demo) world_no_id)) = db world_no_id.
Proof.
  apply (run_update_pipeline_missing_id (H:=demo) world_no_id table_no_id);
    [reflexivity|in_columns|in_columns|discriminate|vm_compute; reflexivity].
Defined.

(** A run on the table that has no column for the score. *)
Lemma run_update_pipeline_save_failure_witness :
  fst (run_update_pipeline (H:=demo) world_unscored) = Ok ()
  ∧ db (snd (run_update_pipeline (H:=demo) world_unscored)) = db world_unscored
  ∧ ∃ out' c0,
      c0 ∈ mention_columns
      ∧ (c0 ∉ t_columns table_unscored)
      ∧ stdout (snd (run_update_pipeline (H:=demo) world_unscored))
        = out' ++ ["An error occurred while saving data: table mentions has no column named "
                   +:+ c0;
                   LF +:+ "--- Pipeline finished successfully! ---"].
Proof.
  apply (run_update_pipeline_save_failure (H:=demo) world_unscored table_unscored
           "sentiment_score");
    [reflexivity|vm_compute; reflexivity|in_columns|in_columns|vm_compute; discriminate].
Defined.

(** The run after the first run from no file. *)
Lemma run_update_pipeline_second_run_witness :
  last (stdout (snd (run_update_pipeline (H:=demo)
                       (snd (run_update_pipeline (H:=demo) world_new)))))
  = Some (match fetched_records (H:=demo) BRANDS SUBREDDITS POST_LIMIT with
          | [] => "No new data fetched from Reddit. Exiting."
          | _ :: _ => "No new posts found since last update. Pipeline finished."
          end).
Proof.
  apply (run_update_pipeline_second_run (H:=demo) world_new);
    [reflexivity|vm_compute; reflexivity].
Defined.

(** A run on the store whose only row does not load: [A] is stored again,
    with [B] and [C]. *)
Lemma run_update_pipeline_load_failed_witness :
  fst (run_update_pipeline (H:=demo) world_out_of_bounds) = Ok ()
  ∧ db (snd (run_update_pipeline (H:=demo) world_out_of_bounds))
    = (match fetched_records (H:=demo) BRANDS SUBREDDITS POST_LIMIT with
       | [] => db world_out_of_bounds
       | _ :: _ =>
           File (Some (mkTable (t_columns table_out_of_bounds)
                         (t_rows table_out_of_bounds
                          ++ (score_record (H:=demo)
                                <$> fetched_records (H:=demo) BRANDS SUBREDDITS POST_LIMIT))))
       end).
Proof.
  apply (run_update_pipeline_load_failed (H:=demo) world_out_of_bounds table_out_of_bounds);
    [reflexivity|vm_compute; reflexivity|vm_compute; reflexivity].
Defined.
